(** * Credential lifecycle of the authentication backend

    A shallow embedding of the auth controller (register, verify-otp,
    login, logout, resend-otp), of the user model, of the in-memory OTP
    cache and of the database connection supervisor, followed by the
    properties of the specification that were checked against them. *)

From Stdlib Require Import ZArith Lia Bool Ascii String List.
From stdpp Require Import base strings gmap list.
Import ListNotations.

Local Open Scope Z_scope.

(* ===================================================================== *)
(** ** JavaScript primitives used by the controller and by the schema *)
(* ===================================================================== *)

Module JS.

(** Strings are sequences of bytes; text outside ASCII is taken in
    UTF-8, as a request body carries it. *)
Definition code (c : ascii) : Z := Z.of_nat (nat_of_ascii c).

(** The white space of one byte that [String.prototype.trim] and
    [parseInt] skip: TAB, LF, VT, FF, CR and SPACE. *)
Definition isWhiteSpace (c : ascii) : bool :=
  let n := Z.of_nat (nat_of_ascii c) in
  ((9 <=? n) && (n <=? 13)) || (n =? 32).

(** The white space of two bytes: U+00A0 (no-break space). *)
Definition isWhiteSpace2 (c c1 : ascii) : bool :=
  (code c =? 194) && (code c1 =? 160).

(** The white space of three bytes: U+1680, U+2000 to U+200A, U+2028,
    U+2029, U+202F, U+205F, U+3000 and U+FEFF. *)
Definition isWhiteSpace3 (c c1 c2 : ascii) : bool :=
  ((code c =? 225) && (code c1 =? 154) && (code c2 =? 128))
  || ((code c =? 226) && (code c1 =? 128)
      && (((128 <=? code c2) && (code c2 <=? 138))
          || (code c2 =? 168) || (code c2 =? 169) || (code c2 =? 175)))
  || ((code c =? 226) && (code c1 =? 129) && (code c2 =? 159))
  || ((code c =? 227) && (code c1 =? 128) && (code c2 =? 128))
  || ((code c =? 239) && (code c1 =? 187) && (code c2 =? 191)).

(** The string without the white space it starts with. *)
Fixpoint trimStart (s : string) : string :=
  match s with
  | EmptyString => EmptyString
  | String c r =>
      if isWhiteSpace c then trimStart r
      else match r with
           | EmptyString => s
           | String c1 r1 =>
               if isWhiteSpace2 c c1 then trimStart r1
               else match r1 with
                    | EmptyString => s
                    | String c2 r2 =>
                        if isWhiteSpace3 c c1 c2 then trimStart r2 else s
                    end
           end
  end.

(** Whether a string is white space only. *)
Definition isBlank (s : string) : bool :=
  match trimStart s with EmptyString => true | _ => false end.

(** The string without the white space it ends with: what precedes
    the point from which on all is white space. *)
Fixpoint trimEnd (s : string) : string :=
  match s with
  | EmptyString => EmptyString
  | String c r => if isBlank s then EmptyString else String c (trimEnd r)
  end.

(** [String.prototype.trim]. *)
Definition trim (s : string) : string := trimEnd (trimStart s).

Definition lowerChar (c : ascii) : ascii :=
  let n := nat_of_ascii c in
  if ((65 <=? n) && (n <=? 90))%nat then ascii_of_nat (n + 32) else c.

(** The letters A to Z in lower case, every other byte as it is. *)
Fixpoint lowerAscii (s : string) : string :=
  match s with
  | EmptyString => EmptyString
  | String c r => String (lowerChar c) (lowerAscii r)
  end.

(** The case mapping of the engine: it follows the tables of the
    Unicode standard, which are no part of the program, and is a
    parameter of the development. *)
Class CaseMapping := { lowerCase : string -> string }.

(** [String.prototype.toLowerCase]: the empty string has nothing to
    map, any other string is mapped by the engine. *)
Definition toLowerCase `{CaseMapping} (s : string) : string :=
  match s with
  | EmptyString => EmptyString
  | _ => lowerCase s
  end.

(** Truthiness of a string: only the empty string is falsy.  A field
    that is absent from the request body ([undefined]) is falsy as
    well and is represented by the empty string. *)
Definition truthy (s : string) : bool :=
  match s with EmptyString => false | _ => true end.

(** Value of a character as a digit, for radices up to 36. *)
Definition digitValue (c : ascii) : option Z :=
  let n := Z.of_nat (nat_of_ascii c) in
  if (48 <=? n) && (n <=? 57) then Some (n - 48)
  else if (97 <=? n) && (n <=? 122) then Some (n - 87)
  else if (65 <=? n) && (n <=? 90) then Some (n - 55)
  else None.

Definition digitIn (radix : Z) (c : ascii) : option Z :=
  match digitValue c with
  | Some d => if d <? radix then Some d else None
  | None => None
  end.

(** The longest prefix of radix digits, read as a number; [None] is
    [NaN] (no digit at all). *)
Fixpoint parseDigits (radix : Z) (s : string) (acc : Z) (seen : bool)
  : option Z :=
  match s with
  | EmptyString => if seen then Some acc else None
  | String c r =>
      match digitIn radix c with
      | Some d => parseDigits radix r (acc * radix + d) true
      | None => if seen then Some acc else None
      end
  end.

Definition stripSign (s : string) : Z * string :=
  match s with
  | String "-"%char r => (-1, r)
  | String "+"%char r => (1, r)
  | _ => (1, s)
  end.

Definition stripPrefix (s : string) : Z * string :=
  match s with
  | String "0"%char (String "x"%char r) => (16, r)
  | String "0"%char (String "X"%char r) => (16, r)
  | _ => (10, s)
  end.

(** [parseInt(string)] without a radix argument: leading white space
    is skipped, then an optional sign, then an optional [0x] prefix
    selects radix 16, then the longest run of digits is read.  The
    result is kept as a mathematical integer; [None] stands for [NaN].
    (JavaScript rounds the result to a double, which changes nothing
    for the comparison with a six digit passcode: integers below 2^53
    are exact, and larger ones round to values of at least 2^53.) *)
Definition parseInt (s : string) : option Z :=
  let '(sign, s1) := stripSign (trimStart s) in
  let '(radix, s2) := stripPrefix s1 in
  match parseDigits radix s2 0 false with
  | Some n => Some (sign * n)
  | None => None
  end.

(** [a !== b] where [a] is a result of [parseInt] and [b] a number:
    [NaN] is different from everything. *)
Definition strictNeq (a : option Z) (b : Z) : bool :=
  match a with
  | Some n => negb (n =? b)
  | None => true
  end.

(** The character of a decimal digit. *)
Definition digitChar (d : Z) : ascii := ascii_of_nat (48 + Z.to_nat d).

(** The decimal digits of a positive integer, most significant first,
    in front of [acc]. *)
Fixpoint render (fuel : nat) (n : Z) (acc : string) : string :=
  match fuel with
  | O => acc
  | S fuel' =>
      if n <=? 0 then acc
      else render fuel' (n / 10) (String (digitChar (n mod 10)) acc)
  end.

(** [String(n)] for an integer [n] (of a size that is printed without
    exponent): how a passcode reads in a template literal, and how a
    client types it back. *)
Definition toString (n : Z) : string :=
  if n =? 0 then "0"%string
  else if n <? 0
       then String "-"%char (render (S (Z.to_nat (Z.log2 (- n)))) (- n) EmptyString)
       else render (S (Z.to_nat (Z.log2 n))) n EmptyString.

(** A run of decimal digits read from the left, starting from [a]. *)
Fixpoint value (s : string) (a : Z) : Z :=
  match s with
  | EmptyString => a
  | String c r =>
      value r (a * 10 + match digitIn 10 c with Some d => d | None => 0 end)
  end.

Fixpoint allDigits (s : string) : bool :=
  match s with
  | EmptyString => true
  | String c r =>
      match digitIn 10 c with Some _ => allDigits r | None => false end
  end.

End JS.

(* ===================================================================== *)
(** ** The user model (mongoose schema and the three queries in use) *)
(* ===================================================================== *)

Module User.

(** A stored document.  The [createdAt] and [updatedAt] stamps that
    [timestamps: true] adds are never read by the controller and are
    left out. *)
Record t := mk {
  _id : Z;
  name : string;
  email : string;
  password : string;
  isVerified : bool
}.

Section Queries.
Context `{JS.CaseMapping}.

(** The setters of the [email] path: [lowercase: true], [trim: true].
    Mongoose runs the setters of a path when a document is saved and
    when a query filter on that path is cast. *)
Definition normalizeEmail (e : string) : string :=
  JS.toLowerCase (JS.trim e).

Definition sameEmail (e : string) (u : t) : bool :=
  String.eqb (email u) e.

(** [User.findOne({ email })]: the first document whose email equals
    the cast filter value. *)
Definition findOne (e : string) (docs : list t) : option t :=
  List.find (sameEmail (normalizeEmail e)) docs.

(** Schema validation: the three [required] paths may not be empty,
    and [password] has [minlength: 6]. *)
Definition valid (u : t) : bool :=
  JS.truthy (name u) && JS.truthy (email u) && JS.truthy (password u)
  && (6 <=? Z.of_nat (String.length (password u))).

(** [User.create({ name, email, password, isVerified })] with the
    identifier the driver generates.  [None] stands for a rejected
    promise: a validation error, or the duplicate key error of the
    unique index on [email]. *)
Definition create (oid : Z) (n e p : string) (v : bool) (docs : list t)
  : option (t * list t) :=
  let doc := mk oid (JS.trim n) (normalizeEmail e) p v in
  if valid doc && negb (existsb (sameEmail (email doc)) docs)
  then Some (doc, docs ++ [doc])
  else None.

Definition setVerified (u : t) : t :=
  mk (_id u) (name u) (email u) (password u) true.

Fixpoint updateFirst (e : string) (docs : list t) : option (t * list t) :=
  match docs with
  | [] => None
  | u :: rest =>
      if sameEmail e u then Some (setVerified u, setVerified u :: rest)
      else match updateFirst e rest with
           | Some (u', rest') => Some (u', u :: rest')
           | None => None
           end
  end.

(** [User.findOneAndUpdate({ email }, { isVerified: true }, { new: true })]:
    the first matching document is updated and returned as updated;
    [None] is the [null] returned when nothing matches. *)
Definition findOneAndUpdate (e : string) (docs : list t)
  : option (t * list t) :=
  updateFirst (normalizeEmail e) docs.

End Queries.

(** The unique index on [email]. *)
Definition uniqueEmails (docs : list t) : Prop :=
  NoDup (List.map email docs).

(** The documents of one email. *)
Definition accountsOf `{JS.CaseMapping} (e : string) (docs : list t) : list t :=
  List.filter (sameEmail (normalizeEmail e)) docs.

End User.

(* ===================================================================== *)
(** ** External primitives and configuration *)
(* ===================================================================== *)

(** The two libraries the controller calls for cryptography: bcrypt
    (password, cost and the salt it draws give the hash; [compare]
    checks a password against a hash) and the keyed hash that signs a
    token.  They are parameters of the development. *)
Class Crypto := {
  bcrypt_hash : string -> Z -> Z -> string;
  bcrypt_compare : string -> string -> bool;
  hmac : string -> Z * Z * Z -> Z
}.

(** [JWT_SECRET] and [JWT_EXPIRE] (in seconds) as read from the process
    environment at start-up. *)
Class Config := {
  JWT_SECRET : string;
  JWT_EXPIRE : Z
}.

(** The fall-back values of the source: ["supersecretkey"] and ["1d"]. *)
Definition defaultConfig : Config :=
  {| JWT_SECRET := "supersecretkey"; JWT_EXPIRE := 24 * 60 * 60 |}.

(* ===================================================================== *)
(** ** Token issuer *)
(* ===================================================================== *)

Module Jwt.

Record payload := mkPayload { id : Z; iat : Z; exp : Z }.

(** A token as it travels: either something that does not decode, or
    a payload with its signature. *)
Inductive token :=
| Garbled (raw : string)
| Jws (p : payload) (signature : Z).

Inductive error := Malformed | InvalidSignature | Expired.

Section Issuer.
Context `{Crypto}.

Definition signature_of (secret : string) (p : payload) : Z :=
  hmac secret (id p, iat p, exp p).

(** Modelled from the spec: the Token Issuer's [issue], which the
    source delegates to [jwt.sign] of the jsonwebtoken package (not
    part of the sources).  The token embeds the account identifier
    and an expiry instant a fixed validity window after the time of
    issue, and is signed with the server-held secret.  Instants are
    in seconds; [now] is [Date.now()], in milliseconds. *)
Definition sign (accountId : Z) (secret : string) (expiresIn : Z)
  (now : Z) : token :=
  let issued := now / 1000 in
  let p := mkPayload accountId issued (issued + expiresIn) in
  Jws p (signature_of secret p).

(** Modelled from the spec: the Token Issuer's [verify] ([jwt.verify]
    of the jsonwebtoken package): [Malformed] if the token does not
    decode, [InvalidSignature] if the signature does not match,
    [Expired] if the embedded expiry has passed; otherwise the
    embedded payload, unchanged. *)
Definition verify (tok : token) (secret : string) (now : Z)
  : error + payload :=
  match tok with
  | Garbled _ => inl Malformed
  | Jws p s =>
      if negb (s =? signature_of secret p) then inl InvalidSignature
      else if exp p <=? now / 1000 then inl Expired
      else inr p
  end.

End Issuer.

End Jwt.

(* ===================================================================== *)
(** ** The OTP cache *)
(* ===================================================================== *)

(** OTP valid for 10 minutes, in milliseconds. *)
Definition OTP_EXPIRY_TIME : Z := 10 * 60 * 1000.

(** 6-digit OTP. *)
Definition OTP_LENGTH : Z := 6.

(** The value stored in [otpCache] under an email. *)
Record OtpData := mkOtp { otp : Z; timestamp : Z }.

(** [crypto.randomInt(min, max)]: an integer [n] with [min <= n < max]
    (the upper bound is exclusive), determined here by the entropy the
    call consumes. *)
Definition randomInt (min max entropy : Z) : Z :=
  min + entropy mod (max - min).

Definition generateOtp (entropy : Z) : Z :=
  randomInt (10 ^ (OTP_LENGTH - 1)) (10 ^ OTP_LENGTH - 1) entropy.

Definition expired (now : Z) (data : OtpData) : bool :=
  now - timestamp data >? OTP_EXPIRY_TIME.

(** One turn of the loop of [cleanExpiredOtps]. *)
Definition evictIfExpired (now : Z) (cache : gmap string OtpData)
  (entry : string * OtpData) : gmap string OtpData :=
  if expired now entry.2 then delete entry.1 cache else cache.

(** [cleanExpiredOtps]: every entry of the cache is visited, and deleted
    when it is older than [OTP_EXPIRY_TIME]. *)
Definition cleanExpiredOtps (now : Z) (cache : gmap string OtpData)
  : gmap string OtpData :=
  foldl (evictIfExpired now) cache (map_to_list cache).

(** Whether the loop deletes [key] when it visits [entry]. *)
Definition hits (clock : Z) (key : string) (entry : string * OtpData) : bool :=
  bool_decide (entry.1 = key) && expired clock entry.2.

(* ===================================================================== *)
(** ** Requests, responses and the state of the server *)
(* ===================================================================== *)

(** What a handler reads from a request: the outcome of
    [validationResult(req)] and the fields of the body.  A field that is
    missing is the empty string. *)
Record request := mkRequest {
  req_errors : list string;
  req_name : string;
  req_email : string;
  req_password : string;
  req_otp : string
}.

(** What the world contributes to the handling of one request: the
    clock, the entropy of [crypto.randomInt], the salt bcrypt draws, the
    identifier generated for a new document, and whether the promise of
    [sendEmail] is fulfilled ([true]) or rejected ([false]). *)
Record effects := mkEffects {
  now : Z;
  entropy : Z;
  salt : Z;
  oid : Z;
  mail_sent : bool
}.

Record UserView := mkView {
  view_id : Z;
  view_name : string;
  view_email : string
}.

Inductive json :=
| JMessage (message : string)
| JValidation (message : string) (errors : list string)
| JRegistered (message : string) (userId : Z)
| JSession (message : string) (token : Jwt.token) (user : UserView).

Inductive cookie :=
| CookieUntouched
| CookieSet (token : Jwt.token)
| CookieCleared.

Record response := mkResponse {
  status : Z;
  body : json;
  jar : cookie
}.

Record state := mkState {
  users : list User.t;
  otpCache : gmap string OtpData
}.

Definition sendErrorResponse (statusCode : Z) (message : string) : response :=
  mkResponse statusCode (JMessage message) CookieUntouched.

(** [validateRequest]: the response to send when validation failed. *)
Definition validateRequest (req : request) : option response :=
  match req_errors req with
  | [] => None
  | errs => Some (mkResponse 400 (JValidation "Validation failed" errs)
                    CookieUntouched)
  end.

Definition viewOf (u : User.t) : UserView :=
  mkView (User._id u) (User.name u) (User.email u).

(* ===================================================================== *)
(** ** The controllers *)
(* ===================================================================== *)

Section Controllers.
Context `{JS.CaseMapping} `{Crypto} `{Config}.

(** The [catch] branch shared by the four asynchronous handlers. *)
Definition internalError : response :=
  sendErrorResponse 500 "Internal server error".

Definition registerUser (w : effects) (req : request) (s : state)
  : response * state :=
  match validateRequest req with
  | Some r => (r, s)
  | None =>
      match User.findOne (req_email req) (users s) with
      | Some _ => (sendErrorResponse 400 "User already exists", s)
      | None =>
          let hashedPassword := bcrypt_hash (req_password req) 10 (salt w) in
          match User.create (oid w) (req_name req) (req_email req)
                  hashedPassword false (users s) with
          | None => (internalError, s)
          | Some (newUser, users') =>
              let code := generateOtp (entropy w) in
              let s' := mkState users'
                          (<[req_email req := mkOtp code (now w)]> (otpCache s)) in
              if mail_sent w
              then (mkResponse 201
                      (JRegistered
                         "User registered successfully. Please check your email for the OTP."
                         (User._id newUser))
                      CookieUntouched, s')
              else (internalError, s')
          end
      end
  end.

Definition verifyOtp (w : effects) (req : request) (s : state)
  : response * state :=
  match validateRequest req with
  | Some r => (r, s)
  | None =>
      if negb (JS.truthy (req_email req)) || negb (JS.truthy (req_otp req))
      then (sendErrorResponse 400 "Email and OTP are required", s)
      else
        let cache1 := cleanExpiredOtps (now w) (otpCache s) in
        match cache1 !! req_email req with
        | None =>
            (sendErrorResponse 400 "OTP not generated or expired",
             mkState (users s) cache1)
        | Some otpData =>
            if JS.strictNeq (JS.parseInt (req_otp req)) (otp otpData)
            then (sendErrorResponse 400 "Invalid OTP", mkState (users s) cache1)
            else
              let cache2 := delete (req_email req) cache1 in
              match User.findOneAndUpdate (req_email req) (users s) with
              | None =>
                  (sendErrorResponse 404 "User not found",
                   mkState (users s) cache2)
              | Some (user, users') =>
                  let token :=
                    Jwt.sign (User._id user) JWT_SECRET JWT_EXPIRE (now w) in
                  (mkResponse 200
                     (JSession "Account verified successfully." token
                        (viewOf user))
                     (CookieSet token),
                   mkState users' cache2)
              end
        end
  end.

Definition loginUser (w : effects) (req : request) (s : state)
  : response * state :=
  match validateRequest req with
  | Some r => (r, s)
  | None =>
      match User.findOne (req_email req) (users s) with
      | None => (sendErrorResponse 401 "Invalid email or password", s)
      | Some user =>
          if negb (User.isVerified user)
          then (sendErrorResponse 401 "Please verify your account first", s)
          else if negb (bcrypt_compare (req_password req) (User.password user))
          then (sendErrorResponse 401 "Invalid email or password", s)
          else
            let token :=
              Jwt.sign (User._id user) JWT_SECRET JWT_EXPIRE (now w) in
            (mkResponse 200 (JSession "Login successful" token (viewOf user))
               (CookieSet token), s)
      end
  end.

Definition logoutUser (s : state) : response * state :=
  (mkResponse 200 (JMessage "Logout successful") CookieCleared, s).

Definition resendOtp (w : effects) (req : request) (s : state)
  : response * state :=
  match validateRequest req with
  | Some r => (r, s)
  | None =>
      if negb (JS.truthy (req_email req))
      then (sendErrorResponse 400 "Email is required", s)
      else
        match User.findOne (req_email req) (users s) with
        | None => (sendErrorResponse 404 "User not found", s)
        | Some user =>
            let code := generateOtp (entropy w) in
            let s' := mkState (users s)
                        (<[req_email req := mkOtp code (now w)]> (otpCache s)) in
            if mail_sent w
            then (mkResponse 200 (JMessage "New OTP sent successfully")
                    CookieUntouched, s')
            else (internalError, s')
        end
  end.

(** [authMiddleware]: the token comes from the cookie or, failing
    that, from the bearer header; the decoded payload is what the
    next handler finds in [req.user]. *)
Definition authMiddleware (clock : Z) (fromCookie fromHeader : option Jwt.token)
  : response + Jwt.payload :=
  let token := match fromCookie with Some t => Some t | None => fromHeader end in
  match token with
  | None =>
      inl (mkResponse 401 (JMessage "No token provided, Unauthorized")
             CookieUntouched)
  | Some t =>
      match Jwt.verify t JWT_SECRET clock with
      | inl _ =>
          inl (mkResponse 403 (JMessage "Invalid or expired token, Forbidden")
                 CookieUntouched)
      | inr decoded => inr decoded
      end
  end.

End Controllers.

(* ===================================================================== *)
(** ** The connection supervisor *)
(* ===================================================================== *)

Module Db.

(** Maximum delay between retries (60s). *)
Definition MAX_RETRY_DELAY : Z := 60000.

(** The delay computed in the [catch] branch, for the counter as
    incremented.  (With doubles, the power overflows to [Infinity] for
    large counters and the minimum is still [MAX_RETRY_DELAY].) *)
Definition retryDelay (retryCount : Z) : Z :=
  Z.min (5000 * 2 ^ (retryCount - 1)) MAX_RETRY_DELAY.

(** One run of [connectDB] given whether [mongoose.connect] succeeds:
    the new value of [retryCount] and, on failure, the delay after
    which [setTimeout] runs [connectDB] again. *)
Definition connectDB (connected : bool) (retryCount : Z) : Z * option Z :=
  if connected then (0, None)
  else let retryCount' := retryCount + 1 in
       (retryCount', Some (retryDelay retryCount')).

(** Successive runs of [connectDB], one per outcome: the delays that
    were scheduled and the final value of the counter. *)
Fixpoint runs (outcomes : list bool) (retryCount : Z) : list Z * Z :=
  match outcomes with
  | [] => ([], retryCount)
  | o :: rest =>
      let '(retryCount', scheduled) := connectDB o retryCount in
      let '(delays, final) := runs rest retryCount' in
      (match scheduled with Some d => d :: delays | None => delays end, final)
  end.

End Db.

(** The answer of a successful registration. *)
Definition registered (newUser : User.t) : response :=
  mkResponse 201
    (JRegistered
       "User registered successfully. Please check your email for the OTP."
       (User._id newUser))
    CookieUntouched.

(** The cache after [otpCache.set(email, { otp, timestamp: Date.now() })]
    with a freshly generated passcode. *)
Definition issued (w : effects) (req : request) (cache : gmap string OtpData)
  : gmap string OtpData :=
  <[req_email req := mkOtp (generateOtp (entropy w)) (now w)]> cache.

(* ===================================================================== *)
(** ** The server as a transition system *)
(* ===================================================================== *)

Inductive call :=
| Register (w : effects) (req : request)
| VerifyOtp (w : effects) (req : request)
| Login (w : effects) (req : request)
| Logout
| ResendOtp (w : effects) (req : request).

Section Server.
Context `{JS.CaseMapping} `{Crypto} `{Config}.

(** The routes of the auth router. *)
Definition handle (c : call) (s : state) : response * state :=
  match c with
  | Register w req => registerUser w req s
  | VerifyOtp w req => verifyOtp w req s
  | Login w req => loginUser w req s
  | Logout => logoutUser s
  | ResendOtp w req => resendOtp w req s
  end.

(** The state after a sequence of requests, served one after the other. *)
Definition serve (calls : list call) (s : state) : state :=
  foldl (fun st c => (handle c st).2) s calls.

End Server.

(** The same contributions of the world, with the mail delivered. *)
Definition delivered (w : effects) : effects :=
  mkEffects (now w) (entropy w) (salt w) (oid w) true.

(** An empty collection and an empty cache: the server as it starts on
    a fresh database. *)
Definition initial : state := mkState [] ∅.

(* ===================================================================== *)
(** ** Notions used to state further properties *)
(* ===================================================================== *)

(** The number of failures at the end of a history of connection
    attempts, since the last success. *)
Fixpoint streak (outcomes : list bool) (sofar : Z) : Z :=
  match outcomes with
  | [] => sofar
  | true :: rest => streak rest 0
  | false :: rest => streak rest (sofar + 1)
  end.

(** The number of failed attempts of a history. *)
Definition failures (outcomes : list bool) : nat :=
  length (List.filter negb outcomes).

(** Every pending passcode belongs to an account: the email it is
    stored under finds a document. *)
Definition orphanFree `{JS.CaseMapping} (s : state) : Prop :=
  forall key d, otpCache s !! key = Some d ->
                exists u, User.findOne key (users s) = Some u.

(** The document [u'] is the document [u], possibly flagged verified
    since. *)
Definition sameAccount (u u' : User.t) : Prop :=
  User._id u' = User._id u /\ User.name u' = User.name u
  /\ User.email u' = User.email u /\ User.password u' = User.password u
  /\ (User.isVerified u = true -> User.isVerified u' = true).

(** Text that [parseInt] stops at when it follows a number: nothing, or
    something that starts with neither a letter nor a digit. *)
Definition stopsNumber (junk : string) : bool :=
  match junk with
  | EmptyString => true
  | String c _ => match JS.digitValue c with Some _ => false | None => true end
  end.

(* ===================================================================== *)
(** ** A concrete instance and a few requests, to run the handlers *)
(* ===================================================================== *)

(** A case mapping that is exact on ASCII text, for the examples. *)
Definition asciiCase : JS.CaseMapping := {| JS.lowerCase := JS.lowerAscii |}.

(** Stand-ins for bcrypt and for the keyed hash, simple enough to
    evaluate the handlers on examples. *)
Definition sampleCrypto : Crypto := {|
  bcrypt_hash p cost s := String.append "$2b$10$" p;
  bcrypt_compare p h := String.eqb (String.append "$2b$10$" p) h;
  hmac secret p :=
    Z.of_nat (String.length secret) + p.1.1 + 31 * p.1.2 + 961 * p.2
|}.

Definition aliceSignup : request :=
  mkRequest [] "Alice" "alice@x.com" "secret1" "".

Definition aliceLogin (pw : string) : request :=
  mkRequest [] "" "alice@x.com" pw "".

Definition aliceCode (code : string) : request :=
  mkRequest [] "" "alice@x.com" "" code.

(** Noon, in milliseconds since midnight. *)
Definition noon : Z := 43200000.

(** What the world contributes at a given time; the draw makes the
    passcode 482913. *)
Definition world (clock : Z) (sent : bool) : effects :=
  mkEffects clock 382913 7 1 sent.

(** The state right after Alice signed up at noon. *)
Definition signedUp : state :=
  (@registerUser asciiCase sampleCrypto (world noon true) aliceSignup initial).2.

Definition alice : User.t :=
  User.mk 1 "Alice" "alice@x.com" "$2b$10$secret1" false.

Definition aliceOtp : OtpData := mkOtp 482913 noon.

(** The state after Alice verified her account, one second later. *)
Definition verifiedUp : state :=
  (@verifyOtp asciiCase sampleCrypto defaultConfig (world (noon + 1000) true)
     (aliceCode "482913") signedUp).2.

(** A pending passcode whose account is gone from the collection. *)
Definition orphaned : state :=
  mkState [] {[ "alice@x.com"%string := aliceOtp ]}.

(** Alice's pending passcode beside one issued to Bob at midnight. *)
Definition crowded : state :=
  mkState [alice]
    (<["bob@x.com"%string := mkOtp 111111 0]>
       {[ "alice@x.com"%string := aliceOtp ]}).

(** Alice signing up with capitals in her email. *)
Definition aliceShouting : request :=
  mkRequest [] "Alice" "Alice@X.com" "secret1" "".

(** A sign-up whose name is two spaces. *)
Definition blankSignup : request :=
  mkRequest [] "  " "carol@x.com" "secret1" "".

(* ===================================================================== *)
(** ** The primitives on examples *)
(* ===================================================================== *)

Example parseInt_plain : JS.parseInt "482913" = Some 482913.
Proof. reflexivity. Qed.

Example parseInt_suffix : JS.parseInt "  482913abc" = Some 482913.
Proof. reflexivity. Qed.

Example parseInt_hex : JS.parseInt "0x1F" = Some 31.
Proof. reflexivity. Qed.

Example parseInt_nan : JS.parseInt "abc" = None.
Proof. reflexivity. Qed.

(** A no-break space (U+00A0, the bytes 194 and 160) before the digits
    is skipped like a space. *)
Example parseInt_nbsp :
  JS.parseInt (String (ascii_of_nat 194) (String (ascii_of_nat 160) "482913"))
  = Some 482913.
Proof. reflexivity. Qed.

(** An ideographic space (U+3000) in front and a byte order mark
    (U+FEFF) behind are trimmed. *)
Example trim_wide :
  JS.trim
    (String (ascii_of_nat 227) (String (ascii_of_nat 128)
       (String (ascii_of_nat 128)
          (String "a"%char
             (String (ascii_of_nat 239) (String (ascii_of_nat 187)
                (String (ascii_of_nat 191) EmptyString)))))))
  = "a"%string.
Proof. reflexivity. Qed.

(** The two bytes of a letter outside ASCII are no white space. *)
Example trim_letter :
  JS.trim (String (ascii_of_nat 195) (String (ascii_of_nat 169) " "))
  = String (ascii_of_nat 195) (String (ascii_of_nat 169) EmptyString).
Proof. reflexivity. Qed.

Example toString_code : JS.toString 482913 = "482913"%string.
Proof. reflexivity. Qed.

Example toString_negative : JS.toString (-17) = "-17"%string.
Proof. reflexivity. Qed.

Example backoff_capped :
  (Db.runs (repeat false 6) 0).1 = [5000; 10000; 20000; 40000; 60000; 60000].
Proof. reflexivity. Qed.

Example generateOtp_low : generateOtp 0 = 100000.
Proof. reflexivity. Qed.

Example generateOtp_high : generateOtp 899998 = 999998.
Proof. reflexivity. Qed.

Example generateOtp_wraps : generateOtp 899999 = 100000.
Proof. reflexivity. Qed.

Example trim_both : JS.trim "  Alice@X.com " = "Alice@X.com"%string.
Proof. reflexivity. Qed.

Example lower_mixed :
  @JS.toLowerCase asciiCase "Alice@X.com" = "alice@x.com"%string.
Proof. reflexivity. Qed.

(* ===================================================================== *)
(** ** Facts about the OTP cache *)
(* ===================================================================== *)

Lemma expired_false clock d :
  clock - timestamp d <= OTP_EXPIRY_TIME -> expired clock d = false.
Proof.
  unfold expired. intros Hage.
  destruct (Z.gtb_spec (clock - timestamp d) OTP_EXPIRY_TIME);
    [lia | reflexivity].
Qed.

Lemma expired_true clock d :
  clock - timestamp d > OTP_EXPIRY_TIME -> expired clock d = true.
Proof.
  unfold expired. intros Hage.
  destruct (Z.gtb_spec (clock - timestamp d) OTP_EXPIRY_TIME);
    [reflexivity | lia].
Qed.

Section CacheFacts.
Implicit Types (cache : gmap string OtpData) (key : string).

Lemma evict_loop_lookup clock entries cache key :
  foldl (evictIfExpired clock) cache entries !! key =
  if existsb (hits clock key) entries then None else cache !! key.
Proof.
  revert cache; induction entries as [|[k d] rest IH]; intros cache; simpl.
  - reflexivity.
  - rewrite IH. unfold evictIfExpired, hits at 2; simpl.
    destruct (existsb (hits clock key) rest).
    + now rewrite orb_true_r.
    + rewrite orb_false_r.
      destruct (expired clock d); simpl.
      * case_bool_decide as Hk; simpl.
        -- subst. apply lookup_delete_eq.
        -- now apply lookup_delete_ne.
      * now rewrite andb_false_r.
Qed.

(** What a lookup sees after the sweep: the entry of before, unless it
    was older than the expiry window. *)
Lemma cleanExpiredOtps_lookup clock cache key :
  cleanExpiredOtps clock cache !! key =
  match cache !! key with
  | Some data => if expired clock data then None else Some data
  | None => None
  end.
Proof.
  unfold cleanExpiredOtps. rewrite evict_loop_lookup.
  destruct (existsb (hits clock key) (map_to_list cache)) eqn:Hex.
  - apply existsb_exists in Hex as [[k d] [Hin Hhit]].
    apply list_elem_of_In, elem_of_map_to_list in Hin.
    unfold hits in Hhit; simpl in Hhit.
    apply andb_true_iff in Hhit as [Hk Hexp].
    apply bool_decide_eq_true in Hk. subst k.
    now rewrite Hin, Hexp.
  - destruct (cache !! key) as [d|] eqn:Hk; [|reflexivity].
    destruct (expired clock d) eqn:Hexp; [|reflexivity].
    exfalso. apply not_true_iff_false in Hex. apply Hex.
    apply existsb_exists. exists (key, d). split.
    + now apply list_elem_of_In, elem_of_map_to_list.
    + unfold hits; simpl. now rewrite bool_decide_eq_true_2, Hexp.
Qed.

Lemma cleanExpiredOtps_live clock cache key data :
  cache !! key = Some data ->
  clock - timestamp data <= OTP_EXPIRY_TIME ->
  cleanExpiredOtps clock cache !! key = Some data.
Proof.
  intros Hk Hage. now rewrite cleanExpiredOtps_lookup, Hk, expired_false.
Qed.

Lemma cleanExpiredOtps_stale clock cache key data :
  cache !! key = Some data ->
  clock - timestamp data > OTP_EXPIRY_TIME ->
  cleanExpiredOtps clock cache !! key = None.
Proof.
  intros Hk Hage. now rewrite cleanExpiredOtps_lookup, Hk, expired_true.
Qed.

Lemma cleanExpiredOtps_absent clock cache key :
  cache !! key = None -> cleanExpiredOtps clock cache !! key = None.
Proof. intros Hk. now rewrite cleanExpiredOtps_lookup, Hk. Qed.

(** Sweeping a cache from which [key] was deleted never brings it back. *)
Lemma cleanExpiredOtps_delete clock clock' cache key :
  cleanExpiredOtps clock' (delete key (cleanExpiredOtps clock cache)) !! key = None.
Proof. apply cleanExpiredOtps_absent, lookup_delete_eq. Qed.

End CacheFacts.

(* ===================================================================== *)
(** ** Facts about the user collection *)
(* ===================================================================== *)

Section StoreFacts.
Context `{JS.CaseMapping}.
Implicit Types (docs : list User.t) (u : User.t) (e : string).

Lemma sameEmail_spec e u : User.sameEmail e u = true <-> User.email u = e.
Proof. unfold User.sameEmail. apply String.eqb_eq. Qed.

Lemma findOne_found e docs u :
  User.findOne e docs = Some u ->
  In u docs /\ User.email u = User.normalizeEmail e.
Proof.
  unfold User.findOne. intros Hf. apply find_some in Hf as [Hin Hm].
  split; [exact Hin | now apply sameEmail_spec].
Qed.

Lemma existsb_find_none e docs :
  find (User.sameEmail e) docs = None ->
  existsb (User.sameEmail e) docs = false.
Proof.
  induction docs as [|a rest IH]; simpl; [reflexivity|].
  destruct (User.sameEmail e a); [discriminate | exact IH].
Qed.

Lemma find_none_not_in e docs :
  find (User.sameEmail e) docs = None -> ~ In e (List.map User.email docs).
Proof.
  intros Hf Hin. apply in_map_iff in Hin as [u [He Hu]].
  pose proof (find_none _ _ Hf u Hu) as Hno.
  apply sameEmail_spec in He. congruence.
Qed.

Lemma existsb_false_not_in e docs :
  existsb (User.sameEmail e) docs = false -> ~ In e (List.map User.email docs).
Proof.
  intros Hex Hin. apply in_map_iff in Hin as [u [He Hu]].
  apply not_true_iff_false in Hex. apply Hex.
  apply existsb_exists. exists u. split; [exact Hu | now apply sameEmail_spec].
Qed.

(** A document that passes [create] is appended, and the unique index
    keeps holding. *)
Lemma create_unique oid n e p v docs doc docs' :
  User.uniqueEmails docs ->
  User.create oid n e p v docs = Some (doc, docs') ->
  User.uniqueEmails docs' /\ docs' = docs ++ [doc]
  /\ doc = User.mk oid (JS.trim n) (User.normalizeEmail e) p v.
Proof.
  unfold User.create, User.uniqueEmails. intros Hnd Hc.
  destruct (User.valid _ && negb (existsb _ docs)) eqn:Hok; [|discriminate].
  injection Hc as <- <-. split; [|split; reflexivity].
  apply andb_true_iff in Hok as [_ Hfresh]. apply negb_true_iff in Hfresh.
  simpl in Hfresh. apply existsb_false_not_in in Hfresh.
  rewrite map_app; simpl.
  apply NoDup_app. repeat split.
  - exact Hnd.
  - intros x Hx Hx'. apply list_elem_of_In in Hx.
    apply list_elem_of_singleton in Hx'. subst x. contradiction.
  - apply NoDup_singleton.
Qed.

(** [findOneAndUpdate] touches the verification flag of one document
    and nothing else. *)
Lemma updateFirst_found e docs u :
  find (User.sameEmail e) docs = Some u ->
  exists docs',
    User.updateFirst e docs = Some (User.setVerified u, docs')
    /\ List.map User.email docs' = List.map User.email docs
    /\ find (User.sameEmail e) docs' = Some (User.setVerified u).
Proof.
  induction docs as [|a rest IH]; simpl; [discriminate|].
  destruct (User.sameEmail e a) eqn:Ha.
  - intros [= ->]. exists (User.setVerified u :: rest). simpl.
    unfold User.sameEmail in *; simpl. now rewrite Ha.
  - intros Hf. destruct (IH Hf) as [docs' [Hu [Hm Hf']]].
    exists (a :: docs'). rewrite Hu. simpl. rewrite Ha, Hm. auto.
Qed.

Lemma updateFirst_none e docs :
  find (User.sameEmail e) docs = None -> User.updateFirst e docs = None.
Proof.
  induction docs as [|a rest IH]; simpl; [reflexivity|].
  destruct (User.sameEmail e a); [discriminate|].
  intros Hf. now rewrite (IH Hf).
Qed.

Lemma updateFirst_emails e docs u docs' :
  User.updateFirst e docs = Some (u, docs') ->
  List.map User.email docs' = List.map User.email docs.
Proof.
  destruct (find (User.sameEmail e) docs) as [v|] eqn:Hf.
  - destruct (updateFirst_found _ _ _ Hf) as [d [Hu [Hm _]]].
    rewrite Hu. now intros [= _ <-].
  - now rewrite (updateFirst_none _ _ Hf).
Qed.

(** Under the unique index, the first match is the only one. *)
Lemma unique_filter e docs u :
  User.uniqueEmails docs ->
  find (User.sameEmail e) docs = Some u ->
  List.filter (User.sameEmail e) docs = [u].
Proof.
  unfold User.uniqueEmails.
  induction docs as [|a rest IH]; simpl; [discriminate|].
  intros Hnd. apply NoDup_cons in Hnd as [Hnotin Hnd].
  destruct (User.sameEmail e a) eqn:Ha.
  - intros [= ->]. f_equal.
    apply sameEmail_spec in Ha. subst e.
    clear IH Hnd. induction rest as [|b rest' IHr]; simpl; [reflexivity|].
    destruct (User.sameEmail (User.email u) b) eqn:Hb.
    + exfalso. apply Hnotin. apply sameEmail_spec in Hb. simpl.
      rewrite Hb. apply list_elem_of_here.
    + apply IHr. intros Hin. apply Hnotin. simpl.
      now apply list_elem_of_further.
  - intros Hf. now apply IH.
Qed.

End StoreFacts.

(* ===================================================================== *)
(** ** Facts about the primitives *)
(* ===================================================================== *)

Lemma strictNeq_false a b : JS.strictNeq a b = false <-> a = Some b.
Proof.
  destruct a as [n|]; simpl.
  - rewrite negb_false_iff, Z.eqb_eq. split; congruence.
  - split; discriminate.
Qed.

Lemma strictNeq_true a b : JS.strictNeq a b = true <-> a <> Some b.
Proof.
  rewrite <- not_false_iff_true, strictNeq_false. reflexivity.
Qed.

Lemma parseInt_truthy s n : JS.parseInt s = Some n -> JS.truthy s = true.
Proof. destruct s; [discriminate | reflexivity]. Qed.

(** *** Reading back a printed number *)

Lemma digitIn_digitChar d : 0 <= d < 10 -> JS.digitIn 10 (JS.digitChar d) = Some d.
Proof.
  intros Hd.
  assert (Hcases : d = 0 \/ d = 1 \/ d = 2 \/ d = 3 \/ d = 4 \/ d = 5 \/ d = 6
                   \/ d = 7 \/ d = 8 \/ d = 9) by lia.
  repeat (destruct Hcases as [-> | Hcases]; [reflexivity|]).
  subst d. reflexivity.
Qed.

Lemma append_cons c (r t : string) : String c r +:+ t = String c (r +:+ t).
Proof. reflexivity. Qed.

Lemma append_empty (s : string) : s +:+ EmptyString = s.
Proof. induction s as [|c r IH]; [reflexivity | now rewrite append_cons, IH]. Qed.

Lemma value_app s t a : JS.value (s +:+ t) a = JS.value t (JS.value s a).
Proof.
  revert a; induction s as [|c r IH]; intros a; [reflexivity|].
  rewrite append_cons. cbn [JS.value]. apply IH.
Qed.

Lemma allDigits_app s t :
  JS.allDigits (s +:+ t) = JS.allDigits s && JS.allDigits t.
Proof.
  induction s as [|c r IH]; [reflexivity|].
  rewrite append_cons. cbn [JS.allDigits].
  now destruct (JS.digitIn 10 c).
Qed.

Lemma app_assoc_string (s t u : string) : (s +:+ t) +:+ u = s +:+ (t +:+ u).
Proof. induction s as [|c r IH]; [reflexivity | now rewrite !append_cons, IH]. Qed.

Lemma render_spec fuel : forall n acc,
  0 <= n < 2 ^ Z.of_nat fuel ->
  exists s, JS.render fuel n acc = s +:+ acc
            /\ JS.allDigits s = true /\ JS.value s 0 = n
            /\ (0 < n -> s <> EmptyString).
Proof.
  induction fuel as [|f IH]; intros n acc Hn.
  - exists EmptyString. simpl in *. repeat split; lia.
  - cbn [JS.render]. destruct (Z.leb_spec n 0) as [Hz|Hpos].
    + exists EmptyString. simpl. repeat split; lia.
    + assert (Hq : 0 <= n / 10 < 2 ^ Z.of_nat f).
      { split; [apply Z.div_pos; lia|].
        apply Z.div_lt_upper_bound; [lia|].
        rewrite Nat2Z.inj_succ, Z.pow_succ_r in Hn by lia. lia. }
      destruct (IH (n / 10) (String (JS.digitChar (n mod 10)) acc) Hq)
        as [s [Hr [Hall [Hval _]]]].
      exists (s +:+ String (JS.digitChar (n mod 10)) EmptyString).
      pose proof (Z.mod_pos_bound n 10 ltac:(lia)) as Hm.
      repeat split.
      * rewrite Hr, app_assoc_string. reflexivity.
      * rewrite allDigits_app, Hall. cbn [andb JS.allDigits].
        now rewrite digitIn_digitChar.
      * rewrite value_app, Hval. cbn [JS.value].
        rewrite digitIn_digitChar by lia.
        pose proof (Z.div_mod n 10 ltac:(lia)). lia.
      * intros _. destruct s; discriminate.
Qed.

Lemma digitIn_inv c d :
  JS.digitIn 10 c = Some d -> 0 <= d < 10 /\ c = JS.digitChar d.
Proof.
  unfold JS.digitIn, JS.digitValue, JS.digitChar.
  pose proof (ascii_nat_embedding c) as Hc.
  set (n := Z.of_nat (nat_of_ascii c)).
  assert (Hn : nat_of_ascii c = Z.to_nat n) by (subst n; now rewrite Nat2Z.id).
  assert (0 <= n) by (subst n; lia).
  destruct (Z.leb_spec 48 n), (Z.leb_spec n 57); cbn [andb].
  - destruct (Z.ltb_spec (n - 48) 10); [|discriminate].
    intros [= <-]. split; [lia|].
    rewrite <- Hc, Hn. f_equal. lia.
  - destruct (Z.leb_spec 97 n), (Z.leb_spec n 122); cbn [andb];
      try destruct (Z.ltb_spec (n - 87) 10); try discriminate; try lia;
      destruct (Z.leb_spec 65 n), (Z.leb_spec n 90); cbn [andb];
      try destruct (Z.ltb_spec (n - 55) 10); try discriminate; lia.
  - destruct (Z.leb_spec 97 n), (Z.leb_spec n 122); cbn [andb];
      try destruct (Z.ltb_spec (n - 87) 10); try discriminate; try lia;
      destruct (Z.leb_spec 65 n), (Z.leb_spec n 90); cbn [andb];
      try destruct (Z.ltb_spec (n - 55) 10); try discriminate; lia.
  - lia.
Qed.

Ltac digit_cases c d H :=
  let Hd := fresh "Hd" in
  let Hcases := fresh "Hcases" in
  destruct (digitIn_inv c d H) as [Hd ->];
  assert (Hcases : d = 0 \/ d = 1 \/ d = 2 \/ d = 3 \/ d = 4 \/ d = 5 \/ d = 6
                   \/ d = 7 \/ d = 8 \/ d = 9) by lia;
  clear H Hd;
  repeat (destruct Hcases as [-> | Hcases]); [..| subst d].

Lemma digit_not_space c d : JS.digitIn 10 c = Some d -> JS.isWhiteSpace c = false.
Proof. intros Hc. digit_cases c d Hc; reflexivity. Qed.

Lemma trimStart_digit c d r :
  JS.digitIn 10 c = Some d -> JS.trimStart (String c r) = String c r.
Proof.
  intros Hc. digit_cases c d Hc; destruct r as [|c1 [|c2 r2]]; reflexivity.
Qed.

Lemma digit_no_sign c d r :
  JS.digitIn 10 c = Some d -> JS.stripSign (String c r) = (1, String c r).
Proof. intros Hc. digit_cases c d Hc; reflexivity. Qed.

Lemma digits_no_prefix s :
  JS.allDigits s = true -> JS.stripPrefix s = (10, s).
Proof.
  destruct s as [|c [|c' r]]; try reflexivity.
  - destruct c as [[] [] [] [] [] [] [] []]; reflexivity.
  - cbn [JS.allDigits]. destruct (JS.digitIn 10 c) as [d|] eqn:Hc; [|discriminate].
    destruct (JS.digitIn 10 c') as [d'|] eqn:Hc'; [|discriminate]. intros _.
    digit_cases c d Hc; try reflexivity.
    digit_cases c' d' Hc'; reflexivity.
Qed.

Lemma parseDigits_all s : forall a seen,
  JS.allDigits s = true ->
  JS.parseDigits 10 s a seen =
  if seen || JS.truthy s then Some (JS.value s a) else None.
Proof.
  induction s as [|c r IH]; intros a seen Hall; simpl in *.
  - now rewrite orb_false_r.
  - destruct (JS.digitIn 10 c) as [d|]; [|discriminate].
    rewrite IH by assumption. simpl. now rewrite orb_true_r.
Qed.

Lemma parseInt_numeral s :
  JS.allDigits s = true -> s <> EmptyString ->
  JS.parseInt s = Some (JS.value s 0).
Proof.
  intros Hall Hne. destruct s as [|c r]; [contradiction|].
  unfold JS.parseInt. simpl in Hall.
  destruct (JS.digitIn 10 c) as [d|] eqn:Hc; [|discriminate].
  rewrite (trimStart_digit c d _ Hc).
  rewrite (digit_no_sign c d r Hc).
  rewrite digits_no_prefix by (simpl; now rewrite Hc).
  rewrite parseDigits_all by (simpl; now rewrite Hc).
  simpl. f_equal. lia.
Qed.

Lemma parseInt_toString n : 0 <= n -> JS.parseInt (JS.toString n) = Some n.
Proof.
  intros Hn. unfold JS.toString.
  destruct (Z.eqb_spec n 0) as [->|Hnz]; [reflexivity|].
  destruct (Z.ltb_spec n 0); [lia|].
  destruct (render_spec (S (Z.to_nat (Z.log2 n))) n EmptyString)
    as [s [Hr [Hall [Hval Hne]]]].
  { split; [lia|]. rewrite Nat2Z.inj_succ, Z2Nat.id by apply Z.log2_nonneg.
    apply Z.log2_spec. lia. }
  rewrite Hr, append_empty, parseInt_numeral;
    [now rewrite Hval | assumption | apply Hne; lia].
Qed.

(* ===================================================================== *)
(** ** OTP verification *)
(* ===================================================================== *)

Section VerifyOtp.
Context `{JS.CaseMapping} `{Crypto} `{Config}.
Implicit Types (w : effects) (req : request) (s : state) (d : OtpData).

(** The four outcomes of [verifyOtp] once the request passed the two
    presence checks. *)
Lemma verifyOtp_checked w req s :
  req_errors req = [] ->
  JS.truthy (req_email req) = true ->
  JS.truthy (req_otp req) = true ->
  verifyOtp w req s =
  let cache1 := cleanExpiredOtps (now w) (otpCache s) in
  match cache1 !! req_email req with
  | None =>
      (sendErrorResponse 400 "OTP not generated or expired",
       mkState (users s) cache1)
  | Some otpData =>
      if JS.strictNeq (JS.parseInt (req_otp req)) (otp otpData)
      then (sendErrorResponse 400 "Invalid OTP", mkState (users s) cache1)
      else
        let cache2 := delete (req_email req) cache1 in
        match User.findOneAndUpdate (req_email req) (users s) with
        | None =>
            (sendErrorResponse 404 "User not found", mkState (users s) cache2)
        | Some (user, users') =>
            let token := Jwt.sign (User._id user) JWT_SECRET JWT_EXPIRE (now w) in
            (mkResponse 200
               (JSession "Account verified successfully." token (viewOf user))
               (CookieSet token),
             mkState users' cache2)
        end
  end.
Proof.
  intros He Hm Ho. unfold verifyOtp, validateRequest.
  rewrite He, Hm, Ho. reflexivity.
Qed.

Lemma verifyOtp_no_entry w req s :
  req_errors req = [] ->
  JS.truthy (req_email req) = true ->
  JS.truthy (req_otp req) = true ->
  cleanExpiredOtps (now w) (otpCache s) !! req_email req = None ->
  verifyOtp w req s =
  (sendErrorResponse 400 "OTP not generated or expired",
   mkState (users s) (cleanExpiredOtps (now w) (otpCache s))).
Proof.
  intros He Hm Ho Hc. rewrite verifyOtp_checked by assumption.
  cbv zeta. now rewrite Hc.
Qed.

Lemma verifyOtp_accepts w req s d u :
  req_errors req = [] ->
  JS.truthy (req_email req) = true ->
  otpCache s !! req_email req = Some d ->
  now w - timestamp d <= OTP_EXPIRY_TIME ->
  JS.parseInt (req_otp req) = Some (otp d) ->
  User.findOne (req_email req) (users s) = Some u ->
  exists users',
    verifyOtp w req s =
    (let token := Jwt.sign (User._id u) JWT_SECRET JWT_EXPIRE (now w) in
     mkResponse 200
       (JSession "Account verified successfully." token
          (viewOf (User.setVerified u)))
       (CookieSet token),
     mkState users'
       (delete (req_email req) (cleanExpiredOtps (now w) (otpCache s))))
    /\ List.map User.email users' = List.map User.email (users s)
    /\ User.findOne (req_email req) users' = Some (User.setVerified u).
Proof.
  intros He Hm Hc Hage Hp Hu.
  destruct (updateFirst_found _ _ _ Hu) as [users' [Hup [Hemails Hfind]]].
  exists users'. split; [|split; assumption].
  rewrite verifyOtp_checked; eauto using parseInt_truthy.
  cbv zeta. rewrite (cleanExpiredOtps_live _ _ _ _ Hc Hage).
  apply strictNeq_false in Hp. rewrite Hp.
  unfold User.findOneAndUpdate. rewrite Hup. reflexivity.
Qed.

Lemma verifyOtp_orphan w req s d :
  req_errors req = [] ->
  JS.truthy (req_email req) = true ->
  otpCache s !! req_email req = Some d ->
  now w - timestamp d <= OTP_EXPIRY_TIME ->
  JS.parseInt (req_otp req) = Some (otp d) ->
  User.findOne (req_email req) (users s) = None ->
  verifyOtp w req s =
  (sendErrorResponse 404 "User not found",
   mkState (users s)
     (delete (req_email req) (cleanExpiredOtps (now w) (otpCache s)))).
Proof.
  intros He Hm Hc Hage Hp Hu.
  rewrite verifyOtp_checked; eauto using parseInt_truthy.
  cbv zeta. rewrite (cleanExpiredOtps_live _ _ _ _ Hc Hage).
  apply strictNeq_false in Hp. rewrite Hp.
  unfold User.findOneAndUpdate. now rewrite (updateFirst_none _ _ Hu).
Qed.

(** C3. For an email with a live OTP entry and an account, verifying
    with the code of the entry succeeds (status 200, the account is
    flagged verified) and deletes the entry, so that the same request,
    repeated at any later moment, is answered "OTP not generated or
    expired": the code is accepted exactly once. *)
Theorem verifyOtp_succeeds_exactly_once w w' req s d u :
  req_errors req = [] ->
  JS.truthy (req_email req) = true ->
  otpCache s !! req_email req = Some d ->
  now w - timestamp d <= OTP_EXPIRY_TIME ->
  JS.parseInt (req_otp req) = Some (otp d) ->
  User.findOne (req_email req) (users s) = Some u ->
  let first := verifyOtp w req s in
  let second := verifyOtp w' req first.2 in
  first.1 =
    (let token := Jwt.sign (User._id u) JWT_SECRET JWT_EXPIRE (now w) in
     mkResponse 200
       (JSession "Account verified successfully." token
          (viewOf (User.setVerified u)))
       (CookieSet token))
  /\ User.findOne (req_email req) (users first.2) = Some (User.setVerified u)
  /\ otpCache first.2 !! req_email req = None
  /\ second.1 = sendErrorResponse 400 "OTP not generated or expired"
  /\ users second.2 = users first.2
  /\ otpCache second.2 !! req_email req = None.
Proof.
  intros He Hm Hc Hage Hp Hu first second.
  destruct (verifyOtp_accepts w req s d u He Hm Hc Hage Hp Hu)
    as [users' [Hrun [_ Hfind]]].
  subst second first. rewrite Hrun. cbn [fst snd users otpCache].
  rewrite verifyOtp_no_entry;
    cbn [fst snd users otpCache];
    eauto using parseInt_truthy, cleanExpiredOtps_delete.
  repeat split; try assumption.
  - apply lookup_delete_eq.
  - apply cleanExpiredOtps_delete.
Qed.

(** C4, as the code has it. The supplied code is compared through
    [parseInt]: for an email with a live OTP entry, a supplied code
    that does not parse to the stored code is answered "Invalid OTP",
    users and entry are left as they were, and a following request with
    a code that parses to the stored one, before the entry expires, is
    accepted. *)
Theorem verifyOtp_mismatch_keeps_entry w w' req req' s d u :
  req_errors req = [] ->
  JS.truthy (req_email req) = true ->
  JS.truthy (req_otp req) = true ->
  otpCache s !! req_email req = Some d ->
  now w - timestamp d <= OTP_EXPIRY_TIME ->
  JS.parseInt (req_otp req) <> Some (otp d) ->
  req_errors req' = [] ->
  req_email req' = req_email req ->
  JS.parseInt (req_otp req') = Some (otp d) ->
  now w' - timestamp d <= OTP_EXPIRY_TIME ->
  User.findOne (req_email req) (users s) = Some u ->
  let first := verifyOtp w req s in
  let second := verifyOtp w' req' first.2 in
  first.1 = sendErrorResponse 400 "Invalid OTP"
  /\ users first.2 = users s
  /\ otpCache first.2 !! req_email req = Some d
  /\ second.1 =
       (let token := Jwt.sign (User._id u) JWT_SECRET JWT_EXPIRE (now w') in
        mkResponse 200
          (JSession "Account verified successfully." token
             (viewOf (User.setVerified u)))
          (CookieSet token))
  /\ User.findOne (req_email req) (users second.2) = Some (User.setVerified u).
Proof.
  intros He Hm Ho Hc Hage Hbad He' Hsame Hgood Hage' Hu first second.
  assert (Hfirst : first =
    (sendErrorResponse 400 "Invalid OTP",
     mkState (users s) (cleanExpiredOtps (now w) (otpCache s)))).
  { subst first. rewrite verifyOtp_checked by assumption.
    cbv zeta. rewrite (cleanExpiredOtps_live _ _ _ _ Hc Hage).
    apply strictNeq_true in Hbad. now rewrite Hbad. }
  subst second. rewrite Hfirst. cbn [fst snd users otpCache].
  pose proof (cleanExpiredOtps_live _ _ _ _ Hc Hage) as Hkept.
  repeat split; try assumption.
  - destruct (verifyOtp_accepts w' req'
                (mkState (users s) (cleanExpiredOtps (now w) (otpCache s))) d u)
      as [users' [Hrun _]]; cbn [users otpCache]; try congruence.
    now rewrite Hrun.
  - destruct (verifyOtp_accepts w' req'
                (mkState (users s) (cleanExpiredOtps (now w) (otpCache s))) d u)
      as [users' [Hrun [_ Hfind]]]; cbn [users otpCache]; try congruence.
    rewrite Hrun. cbn [snd users]. congruence.
Qed.

(** C6, as the code has it. An entry older than the expiry window is
    evicted by the sweep that precedes the lookup, whatever code is
    supplied, and the answer is the one given when no entry exists:
    "OTP not generated or expired". *)
Theorem verifyOtp_expired_as_absent w req s s0 d :
  req_errors req = [] ->
  JS.truthy (req_email req) = true ->
  JS.truthy (req_otp req) = true ->
  otpCache s !! req_email req = Some d ->
  now w - timestamp d > OTP_EXPIRY_TIME ->
  otpCache s0 !! req_email req = None ->
  (verifyOtp w req s).1 = sendErrorResponse 400 "OTP not generated or expired"
  /\ otpCache (verifyOtp w req s).2 !! req_email req = None
  /\ users (verifyOtp w req s).2 = users s
  /\ (verifyOtp w req s0).1 = (verifyOtp w req s).1.
Proof.
  intros He Hm Ho Hc Hage Hnone.
  pose proof (cleanExpiredOtps_stale _ _ _ _ Hc Hage) as Hgone.
  pose proof (cleanExpiredOtps_absent (now w) _ _ Hnone) as Hgone0.
  rewrite !verifyOtp_no_entry by assumption.
  cbn [fst snd users otpCache]. auto.
Qed.

(** C10. When the supplied code matches a live entry but no account has
    the email, the answer is "User not found", and the entry is gone all
    the same: it was deleted before the update was attempted.  The same
    request again is answered as if no OTP existed. *)
Theorem verifyOtp_consumes_before_update w w' req s d :
  req_errors req = [] ->
  JS.truthy (req_email req) = true ->
  otpCache s !! req_email req = Some d ->
  now w - timestamp d <= OTP_EXPIRY_TIME ->
  JS.parseInt (req_otp req) = Some (otp d) ->
  User.findOne (req_email req) (users s) = None ->
  let first := verifyOtp w req s in
  let second := verifyOtp w' req first.2 in
  first.1 = sendErrorResponse 404 "User not found"
  /\ users first.2 = users s
  /\ otpCache first.2 !! req_email req = None
  /\ second.1 = sendErrorResponse 400 "OTP not generated or expired".
Proof.
  intros He Hm Hc Hage Hp Hu first second. subst second first.
  rewrite (verifyOtp_orphan w req s d) by assumption.
  cbn [fst snd users otpCache].
  rewrite verifyOtp_no_entry;
    cbn [fst snd users otpCache];
    eauto using parseInt_truthy, cleanExpiredOtps_delete.
  repeat split. apply lookup_delete_eq.
Qed.

End VerifyOtp.

(* ===================================================================== *)
(** ** Registration, resend and login *)
(* ===================================================================== *)

Section Accounts.
Context `{JS.CaseMapping} `{Crypto} `{Config}.
Implicit Types (w : effects) (req : request) (s : state) (u : User.t).

Lemma registerUser_created w req s newUser users' :
  req_errors req = [] ->
  User.findOne (req_email req) (users s) = None ->
  User.create (oid w) (req_name req) (req_email req)
    (bcrypt_hash (req_password req) 10 (salt w)) false (users s)
  = Some (newUser, users') ->
  registerUser w req s =
  (if mail_sent w then registered newUser else internalError,
   mkState users' (issued w req (otpCache s))).
Proof.
  intros He Hf Hc. unfold registerUser, validateRequest.
  rewrite He, Hf, Hc. now destruct (mail_sent w).
Qed.

Lemma resendOtp_issued w req s u :
  req_errors req = [] ->
  JS.truthy (req_email req) = true ->
  User.findOne (req_email req) (users s) = Some u ->
  resendOtp w req s =
  (if mail_sent w
   then mkResponse 200 (JMessage "New OTP sent successfully") CookieUntouched
   else internalError,
   mkState (users s) (issued w req (otpCache s))).
Proof.
  intros He Hm Hf. unfold resendOtp, validateRequest.
  rewrite He, Hm, Hf. now destruct (mail_sent w).
Qed.

Lemma generateOtp_range e : 100000 <= generateOtp e < 999999.
Proof.
  unfold generateOtp, randomInt, OTP_LENGTH.
  change (10 ^ (6 - 1)) with 100000. change (10 ^ 6 - 1 - 100000) with 899999.
  pose proof (Z.mod_pos_bound e 899999 ltac:(lia)). lia.
Qed.

(** C1, as the code has it. The verification flag is looked at before
    the password: an unverified account is answered "Please verify your
    account first" whatever the password; an unknown email, and a wrong
    password for a verified account, are both answered "Invalid email or
    password". *)
Theorem loginUser_rejections w req s :
  req_errors req = [] ->
  (forall u, User.findOne (req_email req) (users s) = Some u ->
             User.isVerified u = false ->
             loginUser w req s =
             (sendErrorResponse 401 "Please verify your account first", s))
  /\ (User.findOne (req_email req) (users s) = None ->
      loginUser w req s =
      (sendErrorResponse 401 "Invalid email or password", s))
  /\ (forall u, User.findOne (req_email req) (users s) = Some u ->
                User.isVerified u = true ->
                bcrypt_compare (req_password req) (User.password u) = false ->
                loginUser w req s =
                (sendErrorResponse 401 "Invalid email or password", s)).
Proof.
  intros He. unfold loginUser, validateRequest. rewrite He.
  repeat split.
  - intros u -> Hv. now rewrite Hv.
  - now intros ->.
  - intros u -> Hv Hp. now rewrite Hv, Hp.
Qed.

(** C2, as the code has it. Once account and OTP entry are written, a
    rejected send does not undo them: the state is the one a delivered
    mail leaves.  The request, though, is answered 500 "Internal server
    error" by the [catch] branch; it is answered with success when the
    send is fulfilled. *)
Theorem send_failure_keeps_state w req s :
  req_errors req = [] ->
  mail_sent w = false ->
  (forall newUser users',
      User.findOne (req_email req) (users s) = None ->
      User.create (oid w) (req_name req) (req_email req)
        (bcrypt_hash (req_password req) 10 (salt w)) false (users s)
      = Some (newUser, users') ->
      (registerUser w req s).1 = internalError
      /\ (registerUser w req s).2 = mkState users' (issued w req (otpCache s))
      /\ (registerUser w req s).2 = (registerUser (delivered w) req s).2
      /\ (registerUser (delivered w) req s).1 = registered newUser)
  /\ (forall u,
      JS.truthy (req_email req) = true ->
      User.findOne (req_email req) (users s) = Some u ->
      (resendOtp w req s).1 = internalError
      /\ (resendOtp w req s).2 = mkState (users s) (issued w req (otpCache s))
      /\ (resendOtp w req s).2 = (resendOtp (delivered w) req s).2
      /\ (resendOtp (delivered w) req s).1 =
         mkResponse 200 (JMessage "New OTP sent successfully") CookieUntouched).
Proof.
  intros He Hfail. split.
  - intros newUser users' Hf Hc.
    rewrite (registerUser_created w req s newUser users') by assumption.
    rewrite (registerUser_created (delivered w) req s newUser users')
      by assumption.
    rewrite Hfail. cbn. auto.
  - intros u Hm Hf.
    rewrite (resendOtp_issued w req s u) by assumption.
    rewrite (resendOtp_issued (delivered w) req s u) by assumption.
    rewrite Hfail. cbn. auto.
Qed.

(** C5, as the code has it. The passcode drawn has exactly six decimal
    digits, the first of which is not zero; both handlers that issue one
    store it under the email with the current time, replacing whatever
    the cache held there. *)
Theorem otp_issuance w req s :
  10 ^ (OTP_LENGTH - 1) <= generateOtp (entropy w) < 10 ^ OTP_LENGTH
  /\ (forall newUser users',
      req_errors req = [] ->
      User.findOne (req_email req) (users s) = None ->
      User.create (oid w) (req_name req) (req_email req)
        (bcrypt_hash (req_password req) 10 (salt w)) false (users s)
      = Some (newUser, users') ->
      otpCache (registerUser w req s).2 =
      <[req_email req := mkOtp (generateOtp (entropy w)) (now w)]> (otpCache s)
      /\ otpCache (registerUser w req s).2 !! req_email req =
         Some (mkOtp (generateOtp (entropy w)) (now w)))
  /\ (forall u,
      req_errors req = [] ->
      JS.truthy (req_email req) = true ->
      User.findOne (req_email req) (users s) = Some u ->
      otpCache (resendOtp w req s).2 =
      <[req_email req := mkOtp (generateOtp (entropy w)) (now w)]> (otpCache s)
      /\ otpCache (resendOtp w req s).2 !! req_email req =
         Some (mkOtp (generateOtp (entropy w)) (now w))).
Proof.
  split; [|split].
  - pose proof (generateOtp_range (entropy w)).
    change (10 ^ (OTP_LENGTH - 1)) with 100000.
    change (10 ^ OTP_LENGTH) with 1000000. lia.
  - intros newUser users' He Hf Hc.
    rewrite (registerUser_created w req s newUser users') by assumption.
    cbn [snd otpCache]. unfold issued. split; [reflexivity|].
    apply lookup_insert_eq.
  - intros u He Hm Hf.
    rewrite (resendOtp_issued w req s u) by assumption.
    cbn [snd otpCache]. unfold issued. split; [reflexivity|].
    apply lookup_insert_eq.
Qed.

(** C8. When an account has the email of the request, [registerUser]
    answers "User already exists" and changes nothing; with the unique
    index, the collection holds that one account for the email and no
    other. *)
Theorem registerUser_already_exists w req s u :
  req_errors req = [] ->
  User.uniqueEmails (users s) ->
  User.findOne (req_email req) (users s) = Some u ->
  registerUser w req s = (sendErrorResponse 400 "User already exists", s)
  /\ User.accountsOf (req_email req) (users (registerUser w req s).2) = [u]
  /\ User.uniqueEmails (users (registerUser w req s).2).
Proof.
  intros He Huniq Hf.
  assert (Hrun : registerUser w req s =
                 (sendErrorResponse 400 "User already exists", s)).
  { unfold registerUser, validateRequest. now rewrite He, Hf. }
  rewrite Hrun. cbn [snd]. repeat split; [|assumption].
  unfold User.accountsOf. now apply unique_filter.
Qed.

End Accounts.

(* ===================================================================== *)
(** ** The unique index is an invariant of the server *)
(* ===================================================================== *)

Section Invariant.
Context `{JS.CaseMapping} `{Crypto} `{Config}.

Lemma registerUser_unique w req s :
  User.uniqueEmails (users s) ->
  User.uniqueEmails (users (registerUser w req s).2).
Proof.
  intros Hu. unfold registerUser.
  destruct (validateRequest req); [exact Hu|].
  destruct (User.findOne _ _); [exact Hu|].
  destruct (User.create _ _ _ _ _ _) as [[doc docs']|] eqn:Hc; [|exact Hu].
  destruct (create_unique _ _ _ _ _ _ _ _ Hu Hc) as [Hu' _].
  now destruct (mail_sent w).
Qed.

Lemma verifyOtp_unique w req s :
  User.uniqueEmails (users s) ->
  User.uniqueEmails (users (verifyOtp w req s).2).
Proof.
  intros Hu. unfold verifyOtp.
  destruct (validateRequest req); [exact Hu|].
  destruct (_ || _); [exact Hu|].
  destruct (_ !! _); [|exact Hu].
  destruct (JS.strictNeq _ _); [exact Hu|].
  unfold User.findOneAndUpdate.
  destruct (User.updateFirst _ _) as [[u docs']|] eqn:Hup; [|exact Hu].
  cbn [snd users]. unfold User.uniqueEmails.
  now rewrite (updateFirst_emails _ _ _ _ Hup).
Qed.

Lemma loginUser_state w req s : (loginUser w req s).2 = s.
Proof.
  unfold loginUser.
  destruct (validateRequest req); [reflexivity|].
  destruct (User.findOne _ _); [|reflexivity].
  destruct (negb (User.isVerified _)); [reflexivity|].
  now destruct (negb (bcrypt_compare _ _)).
Qed.

Lemma resendOtp_users w req s : users (resendOtp w req s).2 = users s.
Proof.
  unfold resendOtp.
  destruct (validateRequest req); [reflexivity|].
  destruct (negb _); [reflexivity|].
  destruct (User.findOne _ _); [|reflexivity].
  now destruct (mail_sent w).
Qed.

Lemma handle_unique c s :
  User.uniqueEmails (users s) ->
  User.uniqueEmails (users (handle c s).2).
Proof.
  destruct c as [w req|w req|w req| |w req]; simpl; intros Hu.
  - now apply registerUser_unique.
  - now apply verifyOtp_unique.
  - now rewrite loginUser_state.
  - exact Hu.
  - now rewrite resendOtp_users.
Qed.

(** X8. Whatever requests were served since the server started on an
    empty collection, no two accounts share an email. *)
Lemma serve_unique calls :
  User.uniqueEmails (users (serve calls initial)).
Proof.
  unfold serve.
  assert (Hgen : forall s, User.uniqueEmails (users s) ->
            User.uniqueEmails
              (users (foldl (fun st c => (handle c st).2) s calls))).
  { induction calls as [|c rest IH]; intros s Hu; simpl; [exact Hu|].
    apply IH. now apply handle_unique. }
  apply Hgen. apply NoDup_nil_2.
Qed.

End Invariant.

(* ===================================================================== *)
(** ** Tokens *)
(* ===================================================================== *)

Section Tokens.
Context `{JS.CaseMapping} `{Crypto} `{Config}.

Lemma verify_sign (accountId : Z) (secret : string)
  (expiresIn issuedAt checkedAt : Z) :
  Jwt.verify (Jwt.sign accountId secret expiresIn issuedAt) secret checkedAt =
  if issuedAt / 1000 + expiresIn <=? checkedAt / 1000
  then inl Jwt.Expired
  else inr (Jwt.mkPayload accountId (issuedAt / 1000)
              (issuedAt / 1000 + expiresIn)).
Proof.
  unfold Jwt.sign, Jwt.verify. cbn [Jwt.exp].
  now rewrite Z.eqb_refl.
Qed.

(** C9. A token issued for an account identifier verifies, with the
    same secret and before its expiry instant, to a payload carrying
    that identifier; once the expiry instant has passed, verification
    fails with [Expired]. *)
Theorem token_round_trip (accountId : Z) (secret : string)
  (expiresIn issuedAt checkedAt : Z) :
  let token := Jwt.sign accountId secret expiresIn issuedAt in
  let expiry := issuedAt / 1000 + expiresIn in
  (checkedAt / 1000 < expiry ->
   exists p, Jwt.verify token secret checkedAt = inr p
             /\ Jwt.id p = accountId /\ Jwt.exp p = expiry)
  /\ (expiry < checkedAt / 1000 ->
      Jwt.verify token secret checkedAt = inl Jwt.Expired).
Proof.
  intros token expiry. subst token expiry. rewrite verify_sign.
  split; intros Ht.
  - destruct (Z.leb_spec (issuedAt / 1000 + expiresIn) (checkedAt / 1000));
      [lia|]. eexists. repeat split.
  - destruct (Z.leb_spec (issuedAt / 1000 + expiresIn) (checkedAt / 1000));
      [reflexivity | lia].
Qed.

(** What the middleware makes of the token set by [verifyOtp] and
    [loginUser]: the payload with the identifier before the expiry; one
    answer, 403, for an expired token and for any other failure. *)
Lemma authMiddleware_session (accountId issuedAt checkedAt : Z) header :
  let token := Jwt.sign accountId JWT_SECRET JWT_EXPIRE issuedAt in
  (checkedAt / 1000 < issuedAt / 1000 + JWT_EXPIRE ->
   exists p, authMiddleware checkedAt (Some token) header = inr p
             /\ Jwt.id p = accountId)
  /\ (issuedAt / 1000 + JWT_EXPIRE <= checkedAt / 1000 ->
      authMiddleware checkedAt (Some token) header =
      inl (mkResponse 403 (JMessage "Invalid or expired token, Forbidden")
             CookieUntouched)).
Proof.
  intros token. subst token.
  unfold authMiddleware. cbv beta iota zeta. rewrite verify_sign.
  split; intros Ht.
  - destruct (Z.leb_spec (issuedAt / 1000 + JWT_EXPIRE) (checkedAt / 1000));
      [lia|]. eexists. split; reflexivity.
  - destruct (Z.leb_spec (issuedAt / 1000 + JWT_EXPIRE) (checkedAt / 1000));
      [reflexivity | lia].
Qed.

Lemma authMiddleware_forged (p : Jwt.payload) (s clock : Z) header :
  s <> Jwt.signature_of JWT_SECRET p ->
  authMiddleware clock (Some (Jwt.Jws p s)) header =
  inl (mkResponse 403 (JMessage "Invalid or expired token, Forbidden")
         CookieUntouched).
Proof.
  intros Hs. unfold authMiddleware, Jwt.verify. cbv beta iota zeta.
  apply Z.eqb_neq in Hs. now rewrite Hs.
Qed.

End Tokens.

(* ===================================================================== *)
(** ** Backoff of the connection supervisor *)
(* ===================================================================== *)

Lemma runs_app outcomes outcomes' c :
  Db.runs (outcomes ++ outcomes') c =
  ((Db.runs outcomes c).1 ++ (Db.runs outcomes' (Db.runs outcomes c).2).1,
   (Db.runs outcomes' (Db.runs outcomes c).2).2).
Proof.
  revert c; induction outcomes as [|o rest IH]; intros c; simpl.
  - now destruct (Db.runs outcomes' c).
  - destruct (Db.connectDB o c) as [c' scheduled].
    rewrite IH. destruct (Db.runs rest c') as [delays final].
    cbn [fst snd]. destruct (Db.runs outcomes' final) as [delays' final'].
    now destruct scheduled.
Qed.

Lemma runs_failures (n : nat) c :
  Db.runs (repeat false n) c =
  (List.map (fun k => Db.retryDelay (c + 1 + Z.of_nat k)) (seq 0 n),
   c + Z.of_nat n).
Proof.
  revert c; induction n as [|n IH]; intros c.
  - simpl. f_equal. lia.
  - cbn [repeat Db.runs Db.connectDB]. rewrite IH.
    cbn [seq List.map]. rewrite <- seq_shift, List.map_map.
    f_equal.
    + f_equal; [f_equal; lia|].
      apply List.map_ext. intros k. f_equal. lia.
    + lia.
Qed.

(** C7. After [n] failures in a row from a counter at zero, the next
    failure, the (n+1)-th, schedules the retry after
    [min (5000 * 2 ^ n) 60000] milliseconds, so that the delays of [n]
    failures in a row are those for the exponents 0 to [n - 1]; three
    failures wait 5, 10 and 20 seconds; a success sets the counter to
    zero whatever happened before, and the failure that follows waits 5
    seconds again. *)
Theorem backoff_schedule :
  (forall n : nat,
      Db.connectDB false (Db.runs (repeat false n) 0).2 =
      (Z.of_nat n + 1, Some (Z.min (5000 * 2 ^ Z.of_nat n) 60000)))
  /\ (forall n : nat,
      (Db.runs (repeat false n) 0).1 =
      List.map (fun k => Z.min (5000 * 2 ^ Z.of_nat k) 60000) (seq 0 n))
  /\ (Db.runs [false; false; false] 0).1 = [5000; 10000; 20000]
  /\ (forall history c, (Db.runs (history ++ [true]) c).2 = 0)
  /\ (forall history c,
      (Db.runs (history ++ [true; false]) c).1 =
      (Db.runs history c).1 ++ [5000]).
Proof.
  repeat split.
  - intros n. rewrite runs_failures. cbn [snd]. unfold Db.connectDB.
    f_equal. unfold Db.retryDelay, Db.MAX_RETRY_DELAY.
    now replace (0 + Z.of_nat n + 1 - 1) with (Z.of_nat n) by lia.
  - intros n. rewrite runs_failures. cbn [fst].
    apply List.map_ext. intros k. unfold Db.retryDelay, Db.MAX_RETRY_DELAY.
    now replace (0 + 1 + Z.of_nat k - 1) with (Z.of_nat k) by lia.
  - intros history c. rewrite runs_app. reflexivity.
  - intros history c. rewrite runs_app. reflexivity.
Qed.

(* ===================================================================== *)
(** ** From issuance to verification *)
(* ===================================================================== *)

Section EndToEnd.
Context `{JS.CaseMapping} `{Crypto} `{Config}.

Lemma registerUser_success_inv w req s :
  status (registerUser w req s).1 = 201 ->
  req_errors req = []
  /\ User.findOne (req_email req) (users s) = None
  /\ mail_sent w = true
  /\ exists newUser users',
       User.create (oid w) (req_name req) (req_email req)
         (bcrypt_hash (req_password req) 10 (salt w)) false (users s)
       = Some (newUser, users').
Proof.
  unfold registerUser, validateRequest.
  destruct (req_errors req); [|discriminate].
  destruct (User.findOne _ _); [discriminate|].
  destruct (User.create _ _ _ _ _ _) as [[newUser users']|]; [|discriminate].
  destruct (mail_sent w); [|discriminate].
  intros _. repeat split. now exists newUser, users'.
Qed.

Lemma find_last e (docs : list User.t) doc :
  find (User.sameEmail e) docs = None ->
  User.email doc = e ->
  find (User.sameEmail e) (docs ++ [doc]) = Some doc.
Proof.
  intros Hnone He. induction docs as [|a rest IH]; simpl in *.
  - apply sameEmail_spec in He. now rewrite He.
  - destruct (User.sameEmail e a); [discriminate | now apply IH].
Qed.

Lemma create_then_findOne oid n e p v docs doc docs' :
  User.findOne e docs = None ->
  User.create oid n e p v docs = Some (doc, docs') ->
  User.findOne e docs' = Some doc /\ JS.truthy e = true.
Proof.
  unfold User.create, User.findOne. intros Hnone Hc.
  destruct (User.valid _ && _) eqn:Hok; [|discriminate].
  injection Hc as <- <-. split.
  - now apply find_last.
  - apply andb_true_iff in Hok as [Hvalid _]. unfold User.valid in Hvalid.
    cbn [User.name User.email User.password] in Hvalid.
    destruct e; [|reflexivity].
    now rewrite andb_false_r in Hvalid.
Qed.

(** X13. A passcode issued by a successful registration is accepted,
    within the ten minutes, when it is typed back as printed: the
    account is flagged verified and the passcode is consumed. *)
Lemma registerUser_then_verifyOtp w w' req s :
  status (registerUser w req s).1 = 201 ->
  now w' - now w <= OTP_EXPIRY_TIME ->
  let typed := mkRequest [] "" (req_email req) ""
                 (JS.toString (generateOtp (entropy w))) in
  let after := verifyOtp w' typed (registerUser w req s).2 in
  status after.1 = 200
  /\ (exists u, User.findOne (req_email req) (users after.2) = Some u
                /\ User.isVerified u = true)
  /\ otpCache after.2 !! req_email req = None.
Proof.
  intros Hok Hage typed after.
  destruct (registerUser_success_inv _ _ _ Hok)
    as (He & Hnone & Hsent & newUser & users' & Hc).
  destruct (create_then_findOne _ _ _ _ _ _ _ _ Hnone Hc) as [Hfound Hm].
  assert (Hrun := registerUser_created w req s newUser users' He Hnone Hc).
  pose proof (generateOtp_range (entropy w)) as Hrange.
  destruct (verifyOtp_accepts w' typed (registerUser w req s).2
              (mkOtp (generateOtp (entropy w)) (now w)) newUser)
    as [users'' [Hv [_ Hflag]]]; rewrite ?Hrun; cbn [snd users otpCache typed
      req_errors req_email req_otp otp timestamp]; try assumption;
    try reflexivity.
  - apply lookup_insert_eq.
  - apply parseInt_toString. lia.
  - subst after. rewrite Hrun in Hv. rewrite Hrun, Hv.
    cbn [fst snd status users otpCache]. repeat split.
    + exists (User.setVerified newUser). split; [exact Hflag | reflexivity].
    + apply lookup_delete_eq.
Qed.

(** X18. Registering the same email again, right after a registration
    that succeeded, is refused and leaves the state as it was. *)
Lemma registerUser_twice w w' req s :
  status (registerUser w req s).1 = 201 ->
  registerUser w' req (registerUser w req s).2 =
  (sendErrorResponse 400 "User already exists", (registerUser w req s).2).
Proof.
  intros Hok.
  destruct (registerUser_success_inv _ _ _ Hok)
    as (He & Hnone & Hsent & newUser & users' & Hc).
  destruct (create_then_findOne _ _ _ _ _ _ _ _ Hnone Hc) as [Hfound _].
  rewrite (registerUser_created w req s newUser users' He Hnone Hc).
  cbn [snd]. unfold registerUser at 1, validateRequest.
  rewrite He. cbn [users]. now rewrite Hfound.
Qed.

End EndToEnd.

(* ===================================================================== *)
(** ** Further properties of the sweep, the draw and the backoff *)
(* ===================================================================== *)

(** X1. After the sweep an email holds an entry exactly when it held
    that entry before and the entry is at most ten minutes old: nothing
    live is evicted, nothing stale survives, nothing is added.  An
    entry of exactly [OTP_EXPIRY_TIME] milliseconds is still live. *)
Theorem sweep_keeps_exactly_the_live clock (cache : gmap string OtpData) key d :
  cleanExpiredOtps clock cache !! key = Some d <->
  cache !! key = Some d /\ clock - timestamp d <= OTP_EXPIRY_TIME.
Proof.
  rewrite cleanExpiredOtps_lookup. split.
  - destruct (cache !! key) as [d'|]; [|discriminate].
    unfold expired. destruct (Z.gtb_spec (clock - timestamp d') OTP_EXPIRY_TIME);
      [discriminate|]. intros [= ->]. split; [reflexivity | lia].
  - intros [-> Hage]. now rewrite expired_false.
Qed.

Lemma expired_later clock clock' d :
  clock <= clock' -> expired clock d = true -> expired clock' d = true.
Proof.
  unfold expired. intros Hle Hexp.
  destruct (Z.gtb_spec (clock - timestamp d) OTP_EXPIRY_TIME); [|discriminate].
  destruct (Z.gtb_spec (clock' - timestamp d) OTP_EXPIRY_TIME); [reflexivity | lia].
Qed.

(** X2. A sweep followed by a later sweep leaves what the later sweep
    alone leaves; in particular sweeping twice at the same time is
    sweeping once. *)
Theorem sweep_twice clock clock' (cache : gmap string OtpData) :
  clock <= clock' ->
  cleanExpiredOtps clock' (cleanExpiredOtps clock cache) =
  cleanExpiredOtps clock' cache.
Proof.
  intros Hle. apply map_eq. intros key.
  rewrite !cleanExpiredOtps_lookup.
  destruct (cache !! key) as [d|]; [|reflexivity].
  destruct (expired clock d) eqn:Hexp; [|reflexivity].
  now rewrite (expired_later _ _ _ Hle Hexp).
Qed.

(** X3. The passcodes that can be drawn are exactly the integers from
    100000 to 999998: the exclusive upper bound of [crypto.randomInt]
    leaves 999999 out. *)
Theorem generateOtp_exact_range :
  (forall e, 100000 <= generateOtp e <= 999998)
  /\ (forall n, 100000 <= n <= 999998 -> exists e, generateOtp e = n).
Proof.
  split.
  - intros e. pose proof (generateOtp_range e). lia.
  - intros n Hn. exists (n - 100000).
    unfold generateOtp, randomInt, OTP_LENGTH.
    change (10 ^ (6 - 1)) with 100000. change (10 ^ 6 - 1 - 100000) with 899999.
    rewrite Z.mod_small by lia. lia.
Qed.

(** X16. From the first failure on, the delay lies between 5 and 60
    seconds, never decreases as failures add up, and is exactly 60
    seconds from the fifth failure in a row. *)
Theorem retryDelay_bounds (c c' : Z) :
  1 <= c -> c <= c' ->
  5000 <= Db.retryDelay c <= Db.MAX_RETRY_DELAY
  /\ Db.retryDelay c <= Db.retryDelay c'
  /\ (5 <= c -> Db.retryDelay c = Db.MAX_RETRY_DELAY).
Proof.
  intros Hc Hle. unfold Db.retryDelay, Db.MAX_RETRY_DELAY.
  assert (Hpow : 1 <= 2 ^ (c - 1)) by (apply Z.pow_le_mono_r with (b := 0); lia).
  assert (Hmono : 2 ^ (c - 1) <= 2 ^ (c' - 1)) by (apply Z.pow_le_mono_r; lia).
  repeat split; try lia.
  intros H5.
  assert (2 ^ 4 <= 2 ^ (c - 1)) by (apply Z.pow_le_mono_r; lia).
  change (2 ^ 4) with 16 in *. lia.
Qed.

Lemma runs_streak outcomes : forall c,
  (Db.runs outcomes c).2 = streak outcomes c
  /\ length (Db.runs outcomes c).1 = failures outcomes.
Proof.
  unfold failures.
  induction outcomes as [|o rest IH]; intros c; [split; reflexivity|].
  cbn [Db.runs]. destruct o; cbn [Db.connectDB streak List.filter negb].
  - destruct (IH 0) as [Hc Hl]. destruct (Db.runs rest 0). cbn in *. auto.
  - destruct (IH (c + 1)) as [Hc Hl]. destruct (Db.runs rest (c + 1)).
    cbn in *. auto.
Qed.

(** X17. Whatever the history of attempts, [retryCount] is the number
    of failures since the last success, one retry is scheduled per
    failure and none per success, and every delay lies between 5 and 60
    seconds. *)
Theorem counter_counts_streak outcomes :
  (Db.runs outcomes 0).2 = streak outcomes 0
  /\ length (Db.runs outcomes 0).1 = failures outcomes
  /\ Forall (fun d => 5000 <= d <= Db.MAX_RETRY_DELAY) (Db.runs outcomes 0).1.
Proof.
  destruct (runs_streak outcomes 0) as [Hc Hl]. repeat split; try assumption.
  assert (Hgen : forall c, 0 <= c ->
            Forall (fun d => 5000 <= d <= Db.MAX_RETRY_DELAY) (Db.runs outcomes c).1).
  { clear. induction outcomes as [|o rest IH]; intros c Hc; [constructor|].
    cbn [Db.runs]. destruct o; cbn [Db.connectDB].
    - specialize (IH 0 ltac:(lia)). now destruct (Db.runs rest 0).
    - specialize (IH (c + 1) ltac:(lia)). destruct (Db.runs rest (c + 1)).
      cbn [fst] in *. constructor; [|assumption].
      unfold Db.retryDelay, Db.MAX_RETRY_DELAY.
      assert (1 <= 2 ^ (c + 1 - 1)) by (apply Z.pow_le_mono_r with (b := 0); lia).
      lia. }
  apply Hgen. lia.
Qed.

(* ===================================================================== *)
(** ** Further invariants of the handlers *)
(* ===================================================================== *)

Section Steps.
Context `{JS.CaseMapping} `{Crypto} `{Config}.

Lemma find_app_l e (docs docs' : list User.t) u :
  find (User.sameEmail e) docs = Some u ->
  find (User.sameEmail e) (docs ++ docs') = Some u.
Proof.
  induction docs as [|a rest IH]; cbn [find app]; [discriminate|].
  destruct (User.sameEmail e a); [trivial | exact IH].
Qed.

Lemma create_doc oid n e p v docs doc docs' :
  User.create oid n e p v docs = Some (doc, docs') ->
  doc = User.mk oid (JS.trim n) (User.normalizeEmail e) p v
  /\ docs' = docs ++ [doc].
Proof.
  unfold User.create. destruct (User.valid _ && _); [|discriminate].
  intros [= <- <-]. split; reflexivity.
Qed.

Lemma sameAccount_refl u : sameAccount u u.
Proof. repeat split; trivial. Qed.

Lemma sameAccount_setVerified u : sameAccount u (User.setVerified u).
Proof. repeat split; trivial. Qed.

Lemma updateFirst_keeps e0 e docs v docs' u :
  User.updateFirst e0 docs = Some (v, docs') ->
  find (User.sameEmail e) docs = Some u ->
  exists u', find (User.sameEmail e) docs' = Some u' /\ sameAccount u u'.
Proof.
  revert docs'. induction docs as [|a rest IH]; intros docs';
    cbn [User.updateFirst find]; [discriminate|].
  destruct (User.sameEmail e0 a) eqn:Ha0.
  - intros [= <- <-]. cbn [find].
    replace (User.sameEmail e (User.setVerified a)) with (User.sameEmail e a)
      by reflexivity.
    destruct (User.sameEmail e a).
    + intros [= <-]. eauto using sameAccount_setVerified.
    + intros Hf. eauto using sameAccount_refl.
  - destruct (User.updateFirst e0 rest) as [[v' rest']|] eqn:Hup; [|discriminate].
    intros [= <- <-]. cbn [find].
    destruct (User.sameEmail e a).
    + intros [= <-]. eauto using sameAccount_refl.
    + intros Hf. now apply (IH rest').
Qed.

(** How each handler may change the collection: not at all, by
    appending one unverified document, or by the update of
    [findOneAndUpdate]. *)
Lemma registerUser_users w req s :
  users (registerUser w req s).2 = users s
  \/ exists doc, users (registerUser w req s).2 = users s ++ [doc]
                 /\ User.isVerified doc = false
                 /\ User.findOne (req_email req) (users s) = None
                 /\ User.email doc = User.normalizeEmail (req_email req).
Proof.
  unfold registerUser.
  destruct (validateRequest req); [now left|].
  destruct (User.findOne _ _) eqn:Hf; [now left|].
  destruct (User.create _ _ _ _ _ _) as [[doc docs']|] eqn:Hc; [|now left].
  destruct (create_doc _ _ _ _ _ _ _ _ Hc) as [-> ->].
  right. eexists. destruct (mail_sent w); cbn [snd users]; repeat split.
Qed.

Lemma verifyOtp_users w req s :
  users (verifyOtp w req s).2 = users s
  \/ exists v, User.updateFirst (User.normalizeEmail (req_email req)) (users s)
               = Some (v, users (verifyOtp w req s).2).
Proof.
  unfold verifyOtp.
  destruct (validateRequest req); [now left|].
  destruct (_ || _); [now left|].
  destruct (_ !! _); [|now left].
  destruct (JS.strictNeq _ _); [now left|].
  unfold User.findOneAndUpdate.
  destruct (User.updateFirst _ _) as [[u docs']|] eqn:Hup; [|now left].
  right. now exists u.
Qed.

Lemma handle_keeps c s e u :
  User.findOne e (users s) = Some u ->
  exists u', User.findOne e (users (handle c s).2) = Some u'
             /\ sameAccount u u'.
Proof.
  unfold User.findOne. intros Hu.
  destruct c as [w req|w req|w req| |w req]; cbn [handle].
  - destruct (registerUser_users w req s) as [-> | [doc [-> _]]].
    + eauto using sameAccount_refl.
    + exists u. split; [now apply find_app_l | apply sameAccount_refl].
  - destruct (verifyOtp_users w req s) as [-> | [v Hup]].
    + eauto using sameAccount_refl.
    + eapply updateFirst_keeps; eassumption.
  - rewrite loginUser_state. eauto using sameAccount_refl.
  - cbn. eauto using sameAccount_refl.
  - rewrite resendOtp_users. eauto using sameAccount_refl.
Qed.

(** X6. No sequence of requests removes an account or changes its
    identifier, name, email or password hash, and none takes the
    verified flag back. *)
Theorem accounts_are_kept calls s e u :
  User.findOne e (users s) = Some u ->
  exists u', User.findOne e (users (serve calls s)) = Some u'
             /\ sameAccount u u'.
Proof.
  unfold serve. revert s u.
  induction calls as [|c rest IH]; intros s u Hu; cbn [foldl].
  - eauto using sameAccount_refl.
  - destruct (handle_keeps c s e u Hu) as [u1 [Hu1 Hs1]].
    destruct (IH _ _ Hu1) as [u2 [Hu2 Hs2]].
    exists u2. split; [exact Hu2|].
    destruct Hs1 as (? & ? & ? & ? & ?), Hs2 as (? & ? & ? & ? & ?).
    repeat split; try congruence. auto.
Qed.

(** X7. Registration leaves the collection as it is or appends one
    unverified account; login and logout change nothing at all; resend
    leaves the collection as it is.  Only [verifyOtp] can flag an
    account verified. *)
Theorem only_verifyOtp_verifies w req s :
  (users (registerUser w req s).2 = users s
   \/ exists doc, users (registerUser w req s).2 = users s ++ [doc]
                  /\ User.isVerified doc = false)
  /\ (loginUser w req s).2 = s
  /\ (logoutUser s).2 = s
  /\ users (resendOtp w req s).2 = users s.
Proof.
  repeat split.
  - destruct (registerUser_users w req s) as [Hsame | [doc [Happ [Hv _]]]];
      [now left | right; eauto].
  - apply loginUser_state.
  - apply resendOtp_users.
Qed.

Lemma find_emails e (docs docs' : list User.t) u :
  List.map User.email docs' = List.map User.email docs ->
  find (User.sameEmail e) docs = Some u ->
  exists u', find (User.sameEmail e) docs' = Some u'.
Proof.
  revert docs'. induction docs as [|a rest IH]; intros [|a' rest'];
    cbn [List.map find]; try discriminate.
  intros [= Ha Hrest]. unfold User.sameEmail at 1 3. rewrite Ha.
  destruct (String.eqb (User.email a) e); [eauto | now apply IH].
Qed.

Lemma registerUser_orphanFree w req s :
  orphanFree s -> orphanFree (registerUser w req s).2.
Proof.
  intros Hinv. unfold registerUser.
  destruct (validateRequest req); [exact Hinv|].
  destruct (User.findOne _ _) eqn:Hf; [exact Hinv|].
  destruct (User.create _ _ _ _ _ _) as [[doc docs']|] eqn:Hc; [|exact Hinv].
  destruct (create_then_findOne _ _ _ _ _ _ _ _ Hf Hc) as [Hfound _].
  destruct (create_doc _ _ _ _ _ _ _ _ Hc) as [_ Hdocs].
  assert (Hgoal : orphanFree
            (mkState docs'
               (<[req_email req := mkOtp (generateOtp (entropy w)) (now w)]>
                  (otpCache s)))).
  { intros key d. cbn [users otpCache].
    destruct (decide (req_email req = key)) as [<-|Hne].
    - intros _. eauto.
    - rewrite lookup_insert_ne by assumption. intros Hk.
      destruct (Hinv key d Hk) as [u Hu]. exists u. rewrite Hdocs.
      now apply find_app_l. }
  now destruct (mail_sent w).
Qed.

Lemma sweep_lookup_Some clock (cache : gmap string OtpData) key d :
  cleanExpiredOtps clock cache !! key = Some d -> cache !! key = Some d.
Proof.
  rewrite cleanExpiredOtps_lookup.
  destruct (cache !! key) as [d'|]; [|discriminate].
  now destruct (expired clock d').
Qed.

Lemma verifyOtp_orphanFree w req s :
  orphanFree s -> orphanFree (verifyOtp w req s).2.
Proof.
  intros Hinv.
  assert (Hsweep : forall docs,
            (forall key u, User.findOne key (users s) = Some u ->
                           exists u', User.findOne key docs = Some u') ->
            forall cache,
            (forall key d, cache !! key = Some d ->
                           cleanExpiredOtps (now w) (otpCache s) !! key = Some d) ->
            orphanFree (mkState docs cache)).
  { intros docs Hdocs cache Hcache key d Hk. cbn [users otpCache] in *.
    apply Hcache, sweep_lookup_Some in Hk.
    destruct (Hinv key d Hk) as [u Hu]. eauto. }
  unfold verifyOtp.
  destruct (validateRequest req); [exact Hinv|].
  destruct (_ || _); [exact Hinv|].
  destruct (_ !! _); [|apply Hsweep; eauto].
  destruct (JS.strictNeq _ _); [apply Hsweep; eauto|].
  assert (Hdel : forall key d,
            delete (req_email req) (cleanExpiredOtps (now w) (otpCache s)) !! key
            = Some d ->
            cleanExpiredOtps (now w) (otpCache s) !! key = Some d).
  { intros key d Hk. now apply lookup_delete_Some in Hk as [_ Hk]. }
  unfold User.findOneAndUpdate.
  destruct (User.updateFirst _ _) as [[u docs']|] eqn:Hup;
    cbn [snd]; apply Hsweep; eauto.
  intros key v Hv. unfold User.findOne in *.
  eapply find_emails; [|exact Hv]. eapply updateFirst_emails; eassumption.
Qed.

Lemma resendOtp_orphanFree w req s :
  orphanFree s -> orphanFree (resendOtp w req s).2.
Proof.
  intros Hinv. unfold resendOtp.
  destruct (validateRequest req); [exact Hinv|].
  destruct (negb _); [exact Hinv|].
  destruct (User.findOne _ _) as [user|] eqn:Hf; [|exact Hinv].
  assert (Hgoal : orphanFree
            (mkState (users s)
               (<[req_email req := mkOtp (generateOtp (entropy w)) (now w)]>
                  (otpCache s)))).
  { intros key d. cbn [users otpCache].
    destruct (decide (req_email req = key)) as [<-|Hne].
    - intros _. eauto.
    - rewrite lookup_insert_ne by assumption. apply Hinv. }
  now destruct (mail_sent w).
Qed.

Lemma serve_orphanFree calls : orphanFree (serve calls initial).
Proof.
  unfold serve.
  assert (Hgen : forall s, orphanFree s ->
            orphanFree (foldl (fun st c => (handle c st).2) s calls)).
  { induction calls as [|c rest IH]; intros s Hs; cbn [foldl]; [exact Hs|].
    apply IH. destruct c as [w req|w req|w req| |w req]; cbn [handle].
    - now apply registerUser_orphanFree.
    - now apply verifyOtp_orphanFree.
    - now rewrite loginUser_state.
    - exact Hs.
    - now apply resendOtp_orphanFree. }
  apply Hgen. intros key d Hk. cbn in Hk. now rewrite lookup_empty in Hk.
Qed.

(** X5. On a server started with an empty collection, whatever
    requests were served, [verifyOtp] is never answered 404: every
    pending passcode belongs to an account. *)
Theorem verifyOtp_finds_the_account calls w req :
  (status (verifyOtp w req (serve calls initial)).1 =? 404) = false.
Proof.
  pose proof (serve_orphanFree calls) as Hinv.
  set (s := serve calls initial) in *.
  unfold verifyOtp.
  destruct (validateRequest req) as [r|] eqn:Hval.
  { unfold validateRequest in Hval. destruct (req_errors req); [discriminate|].
    now injection Hval as <-. }
  destruct (_ || _); [reflexivity|].
  destruct (_ !! _) as [d|] eqn:Hk; [|reflexivity].
  destruct (JS.strictNeq _ _); [reflexivity|].
  apply sweep_lookup_Some in Hk. destruct (Hinv _ _ Hk) as [u Hu].
  destruct (updateFirst_found _ _ _ Hu) as [docs' [Hup _]].
  unfold User.findOneAndUpdate. rewrite Hup. reflexivity.
Qed.

End Steps.

(* ===================================================================== *)
(** ** Further properties of verification, issuance and login *)
(* ===================================================================== *)

Lemma digitIn_none c : JS.digitValue c = None -> JS.digitIn 10 c = None.
Proof. unfold JS.digitIn. now intros ->. Qed.

Lemma parseDigits_stop junk v :
  stopsNumber junk = true -> JS.parseDigits 10 junk v true = Some v.
Proof.
  destruct junk as [|c r]; [reflexivity|]. cbn [stopsNumber JS.parseDigits].
  destruct (JS.digitValue c) eqn:Hc; [discriminate|].
  now rewrite (digitIn_none c Hc).
Qed.

Lemma parseDigits_prefix s junk : forall a seen,
  JS.allDigits s = true -> s <> EmptyString -> stopsNumber junk = true ->
  JS.parseDigits 10 (s +:+ junk) a seen = Some (JS.value s a).
Proof.
  induction s as [|c r IH]; intros a seen Hall Hne Hjunk; [contradiction|].
  rewrite append_cons. cbn [JS.parseDigits JS.value JS.allDigits] in *.
  destruct (JS.digitIn 10 c) as [d|]; [|discriminate].
  destruct r as [|c' r'].
  - change (EmptyString +:+ junk) with junk. now apply parseDigits_stop.
  - now apply IH.
Qed.

Lemma no_prefix_junk c d rest :
  JS.digitIn 10 c = Some d ->
  match rest with
  | EmptyString => True
  | String c' _ => (exists d', JS.digitIn 10 c' = Some d') \/ JS.digitValue c' = None
  end ->
  JS.stripPrefix (String c rest) = (10, String c rest).
Proof.
  intros Hc Hrest. destruct rest as [|c' r].
  - digit_cases c d Hc; reflexivity.
  - digit_cases c d Hc; try reflexivity.
    destruct Hrest as [[d' Hc'] | Hc'].
    + digit_cases c' d' Hc'; reflexivity.
    + destruct c' as [[] [] [] [] [] [] [] []]; try reflexivity; discriminate.
Qed.

Lemma parseInt_numeral_junk s junk :
  JS.allDigits s = true -> s <> EmptyString -> stopsNumber junk = true ->
  JS.parseInt (s +:+ junk) = Some (JS.value s 0).
Proof.
  intros Hall Hne Hjunk. destruct s as [|c r]; [contradiction|].
  pose proof Hall as Hall'. cbn [JS.allDigits] in Hall'.
  destruct (JS.digitIn 10 c) as [d|] eqn:Hc; [|discriminate].
  unfold JS.parseInt. rewrite append_cons.
  rewrite (trimStart_digit c d _ Hc), (digit_no_sign c d _ Hc).
  rewrite (no_prefix_junk c d).
  - rewrite <- append_cons, parseDigits_prefix by assumption.
    f_equal. lia.
  - exact Hc.
  - destruct r as [|c' r'].
    + change (EmptyString +:+ junk) with junk. destruct junk as [|j js]; [trivial|].
      right. cbn [stopsNumber] in Hjunk. now destruct (JS.digitValue j).
    + rewrite append_cons. left. cbn [JS.allDigits] in Hall'.
      destruct (JS.digitIn 10 c') as [d'|]; [eauto | discriminate].
Qed.

Lemma toString_numeral n :
  0 <= n ->
  JS.allDigits (JS.toString n) = true /\ JS.toString n <> EmptyString
  /\ JS.value (JS.toString n) 0 = n.
Proof.
  intros Hn. unfold JS.toString.
  destruct (Z.eqb_spec n 0) as [->|Hnz]; [repeat split; discriminate|].
  destruct (Z.ltb_spec n 0); [lia|].
  destruct (render_spec (S (Z.to_nat (Z.log2 n))) n EmptyString)
    as [s [Hr [Hall [Hval Hne]]]].
  { split; [lia|]. rewrite Nat2Z.inj_succ, Z2Nat.id by apply Z.log2_nonneg.
    apply Z.log2_spec. lia. }
  rewrite Hr, append_empty. repeat split; try assumption. apply Hne. lia.
Qed.

(** What follows a number is not read. *)
Lemma parseInt_toString_junk n junk :
  0 <= n -> stopsNumber junk = true ->
  JS.parseInt (JS.toString n +:+ junk) = Some n.
Proof.
  intros Hn Hjunk. destruct (toString_numeral n Hn) as (Hall & Hne & Hval).
  now rewrite parseInt_numeral_junk, Hval.
Qed.

Section More.
Context `{JS.CaseMapping} `{Crypto} `{Config}.

(** X4. [parseInt] stops reading at the first character that is no
    digit: a live passcode followed by text that starts with neither a
    letter nor a digit is accepted like the passcode itself. *)
Theorem verifyOtp_ignores_trailing_text w s email junk d u :
  JS.truthy email = true ->
  otpCache s !! email = Some d ->
  now w - timestamp d <= OTP_EXPIRY_TIME ->
  0 <= otp d ->
  stopsNumber junk = true ->
  User.findOne email (users s) = Some u ->
  let typed := mkRequest [] "" email "" (JS.toString (otp d) +:+ junk) in
  status (verifyOtp w typed s).1 = 200
  /\ otpCache (verifyOtp w typed s).2 !! email = None
  /\ User.findOne email (users (verifyOtp w typed s).2)
     = Some (User.setVerified u).
Proof.
  intros Hm Hc Hage Hpos Hjunk Hu typed.
  destruct (verifyOtp_accepts w typed s d u) as [users' [Hrun [_ Hflag]]];
    subst typed; cbn [req_errors req_email req_otp]; try assumption;
    try reflexivity.
  - now apply parseInt_toString_junk.
  - rewrite Hrun. cbn [fst snd status users otpCache]. repeat split.
    + apply lookup_delete_eq.
    + exact Hflag.
Qed.

(** X11. A verification request that passes the presence checks
    sweeps the entries of all other emails, whatever its own outcome:
    theirs are gone when older than ten minutes and untouched
    otherwise. *)
Theorem verifyOtp_sweeps_everyone w req s key :
  req_errors req = [] ->
  JS.truthy (req_email req) = true ->
  JS.truthy (req_otp req) = true ->
  key <> req_email req ->
  otpCache (verifyOtp w req s).2 !! key =
  match otpCache s !! key with
  | Some d => if now w - timestamp d >? OTP_EXPIRY_TIME then None else Some d
  | None => None
  end.
Proof.
  intros He Hm Ho Hne.
  change (match otpCache s !! key with
          | Some d => if now w - timestamp d >? OTP_EXPIRY_TIME then None else Some d
          | None => None
          end)
    with (match otpCache s !! key with
          | Some d => if expired (now w) d then None else Some d
          | None => None
          end).
  rewrite <- cleanExpiredOtps_lookup.
  rewrite verifyOtp_checked by assumption. cbv zeta.
  destruct (_ !! req_email req); [|reflexivity].
  destruct (JS.strictNeq _ _); [reflexivity|].
  destruct (User.findOneAndUpdate _ _) as [[u docs']|];
    cbn [snd otpCache]; now rewrite lookup_delete_ne by congruence.
Qed.

(** X12. Registration and resend never touch the pending passcode of
    another email. *)
Theorem issuance_touches_one_key w req s key :
  key <> req_email req ->
  otpCache (registerUser w req s).2 !! key = otpCache s !! key
  /\ otpCache (resendOtp w req s).2 !! key = otpCache s !! key.
Proof.
  intros Hne. split.
  - unfold registerUser.
    destruct (validateRequest req); [reflexivity|].
    destruct (User.findOne _ _); [reflexivity|].
    destruct (User.create _ _ _ _ _ _) as [[doc docs']|]; [|reflexivity].
    destruct (mail_sent w); cbn [snd otpCache];
      now rewrite lookup_insert_ne by congruence.
  - unfold resendOtp.
    destruct (validateRequest req); [reflexivity|].
    destruct (negb _); [reflexivity|].
    destruct (User.findOne _ _); [|reflexivity].
    destruct (mail_sent w); cbn [snd otpCache];
      now rewrite lookup_insert_ne by congruence.
Qed.

(** X14. A name that is blank once trimmed fails the schema's
    [required] check when the document is created: the registration is
    answered 500 and neither account nor passcode is written. *)
Theorem blank_name_is_answered_500 w req s :
  req_errors req = [] ->
  User.findOne (req_email req) (users s) = None ->
  JS.trim (req_name req) = EmptyString ->
  registerUser w req s = (sendErrorResponse 500 "Internal server error", s).
Proof.
  intros He Hf Hname. unfold registerUser, validateRequest.
  rewrite He, Hf. unfold User.create, User.valid.
  cbn [User.name]. rewrite Hname. reflexivity.
Qed.

(** X15. The passcode is stored under the email as typed, the
    account under the email in lower case and trimmed.  After a
    registration, a verification that spells the email differently
    finds the account but no passcode: it is answered "OTP not generated
    or expired" whatever code it carries, and verifies nothing. *)
Theorem otp_is_keyed_by_the_email_as_typed w w' req s email' code :
  status (registerUser w req s).1 = 201 ->
  email' <> req_email req ->
  User.normalizeEmail email' = User.normalizeEmail (req_email req) ->
  otpCache s !! email' = None ->
  JS.truthy email' = true ->
  JS.truthy code = true ->
  let s1 := (registerUser w req s).2 in
  let typed := mkRequest [] "" email' "" code in
  (verifyOtp w' typed s1).1
  = sendErrorResponse 400 "OTP not generated or expired"
  /\ users (verifyOtp w' typed s1).2 = users s1
  /\ exists u, User.findOne email' (users s1) = Some u
               /\ User.findOne (req_email req) (users s1) = Some u
               /\ User.isVerified u = false.
Proof.
  intros Hok Hne Hnorm Hnone Hm Hcode s1 typed.
  destruct (registerUser_success_inv _ _ _ Hok)
    as (He & Hf & Hsent & newUser & users' & Hc).
  destruct (create_then_findOne _ _ _ _ _ _ _ _ Hf Hc) as [Hfound _].
  destruct (create_doc _ _ _ _ _ _ _ _ Hc) as [Hdoc _].
  assert (Hs1 : s1 = mkState users' (issued w req (otpCache s))).
  { subst s1. now rewrite (registerUser_created w req s newUser users'). }
  assert (Hgone : cleanExpiredOtps (now w') (otpCache s1) !! email' = None).
  { apply cleanExpiredOtps_absent. rewrite Hs1. cbn [otpCache]. unfold issued.
    now rewrite lookup_insert_ne by congruence. }
  rewrite (verifyOtp_no_entry w' typed s1) by (subst typed; assumption || reflexivity).
  cbn [fst snd users]. repeat split.
  exists newUser. rewrite Hs1. cbn [users]. repeat split.
  - unfold User.findOne in *. now rewrite Hnorm.
  - exact Hfound.
  - now rewrite Hdoc.
Qed.

(** X9. Registration, then verification with the passcode as printed
    within ten minutes, then login with the password of the
    registration: the login succeeds and returns the identifier, the
    trimmed name and the normalised email of the account, provided
    bcrypt recognises the password it hashed. *)
Theorem register_verify_login w w1 w2 req s :
  status (registerUser w req s).1 = 201 ->
  now w1 - now w <= OTP_EXPIRY_TIME ->
  bcrypt_compare (req_password req) (bcrypt_hash (req_password req) 10 (salt w))
  = true ->
  let typed := mkRequest [] "" (req_email req) ""
                 (JS.toString (generateOtp (entropy w))) in
  let s2 := (verifyOtp w1 typed (registerUser w req s).2).2 in
  let credentials := mkRequest [] "" (req_email req) (req_password req) "" in
  let token := Jwt.sign (oid w) JWT_SECRET JWT_EXPIRE (now w2) in
  loginUser w2 credentials s2 =
  (mkResponse 200
     (JSession "Login successful" token
        (mkView (oid w) (JS.trim (req_name req))
           (User.normalizeEmail (req_email req))))
     (CookieSet token), s2).
Proof.
  intros Hok Hage Hpw typed s2 credentials token.
  destruct (registerUser_success_inv _ _ _ Hok)
    as (He & Hf & Hsent & newUser & users' & Hc).
  destruct (create_then_findOne _ _ _ _ _ _ _ _ Hf Hc) as [Hfound Hm].
  destruct (create_doc _ _ _ _ _ _ _ _ Hc) as [Hdoc _].
  assert (Hrun := registerUser_created w req s newUser users' He Hf Hc).
  pose proof (generateOtp_range (entropy w)) as Hrange.
  destruct (verifyOtp_accepts w1 typed (registerUser w req s).2
              (mkOtp (generateOtp (entropy w)) (now w)) newUser)
    as [users'' [Hv [_ Hflag]]]; rewrite ?Hrun; subst typed;
    cbn [snd users otpCache req_errors req_email req_otp otp timestamp];
    try assumption; try reflexivity.
  - apply lookup_insert_eq.
  - apply parseInt_toString. lia.
  - subst s2. rewrite Hrun in Hv. rewrite Hrun, Hv. cbn [snd].
    unfold loginUser, validateRequest. subst credentials.
    cbn [req_email] in Hflag.
    cbn [req_errors req_email req_password users]. rewrite Hflag.
    subst newUser token. cbn [User.setVerified User.isVerified User.password
      User._id User.name User.email negb viewOf].
    now rewrite Hpw.
Qed.

(** X10. Once a resend drew a different passcode, the passcode it
    replaced is answered "Invalid OTP", and the new one is accepted
    after that failed attempt. *)
Theorem resendOtp_replaces_the_code w w1 w2 req s old u :
  req_errors req = [] ->
  JS.truthy (req_email req) = true ->
  User.findOne (req_email req) (users s) = Some u ->
  otpCache s !! req_email req = Some old ->
  0 <= otp old ->
  otp old <> generateOtp (entropy w) ->
  now w1 - now w <= OTP_EXPIRY_TIME ->
  now w2 - now w <= OTP_EXPIRY_TIME ->
  let s1 := (resendOtp w req s).2 in
  let typed code := mkRequest [] "" (req_email req) "" (JS.toString code) in
  let stale := verifyOtp w1 (typed (otp old)) s1 in
  let fresh := verifyOtp w2 (typed (generateOtp (entropy w))) stale.2 in
  stale.1 = sendErrorResponse 400 "Invalid OTP"
  /\ status fresh.1 = 200
  /\ User.findOne (req_email req) (users fresh.2) = Some (User.setVerified u).
Proof.
  intros He Hm Hu Hold Hpos Hdiff Hage1 Hage2 s1 typed stale fresh.
  pose proof (generateOtp_range (entropy w)) as Hrange.
  assert (Hs1 : s1 = mkState (users s) (issued w req (otpCache s))).
  { subst s1. now rewrite (resendOtp_issued w req s u). }
  set (new := mkOtp (generateOtp (entropy w)) (now w)) in *.
  assert (Hnew : otpCache s1 !! req_email req = Some new).
  { rewrite Hs1. apply lookup_insert_eq. }
  assert (Hu1 : User.findOne (req_email req) (users s1) = Some u)
    by now rewrite Hs1.
  assert (Hstale : stale =
            (sendErrorResponse 400 "Invalid OTP",
             mkState (users s1) (cleanExpiredOtps (now w1) (otpCache s1)))).
  { subst stale typed. rewrite verifyOtp_checked;
      cbn [req_errors req_email req_otp]; try assumption; try reflexivity.
    - cbv zeta. rewrite (cleanExpiredOtps_live _ _ _ new Hnew) by assumption.
      rewrite parseInt_toString by assumption.
      assert (Hneq : JS.strictNeq (Some (otp old)) (otp new) = true).
      { apply strictNeq_true. cbn [otp new]. congruence. }
      now rewrite Hneq.
    - apply (parseInt_truthy _ (otp old)). now apply parseInt_toString. }
  split; [now rewrite Hstale|].
  destruct (verifyOtp_accepts w2 (typed (generateOtp (entropy w))) stale.2 new u)
    as [users' [Hrun [_ Hflag]]]; rewrite ?Hstale; subst typed;
    cbn [snd users otpCache req_errors req_email req_otp otp timestamp new];
    try assumption; try reflexivity.
  - now apply cleanExpiredOtps_live.
  - apply parseInt_toString. lia.
  - subst fresh. rewrite Hstale in Hrun. rewrite Hstale, Hrun.
    cbn [fst snd status users]. cbn [req_email] in Hflag. split; [reflexivity|].
    exact Hflag.
Qed.


End More.

(* ===================================================================== *)
(** ** The properties on Alice's account *)
(* ===================================================================== *)

#[local] Existing Instance asciiCase.
#[local] Existing Instance sampleCrypto.
#[local] Existing Instance defaultConfig.

Example signedUp_alice : users signedUp = [alice].
Proof. reflexivity. Qed.

Example verifiedUp_alice : users verifiedUp = [User.setVerified alice].
Proof. vm_compute. reflexivity. Qed.

Lemma signedUp_pending : otpCache signedUp !! "alice@x.com"%string = Some aliceOtp.
Proof. vm_compute. reflexivity. Defined.

Lemma orphaned_pending : otpCache orphaned !! "alice@x.com"%string = Some aliceOtp.
Proof. vm_compute. reflexivity. Defined.

Lemma verifyOtp_succeeds_exactly_once_witness :
  let first := verifyOtp (world (noon + 1000) true) (aliceCode "482913") signedUp in
  let second := verifyOtp (world (noon + 2000) true) (aliceCode "482913") first.2 in
  status first.1 = 200
  /\ User.findOne "alice@x.com" (users first.2) = Some (User.setVerified alice)
  /\ second.1 = sendErrorResponse 400 "OTP not generated or expired".
Proof.
  destruct (verifyOtp_succeeds_exactly_once
              (world (noon + 1000) true) (world (noon + 2000) true)
              (aliceCode "482913") signedUp aliceOtp alice
              eq_refl eq_refl signedUp_pending ltac:(vm_compute; discriminate)
              eq_refl eq_refl)
    as (Hfirst & Hflag & _ & Hsecond & _).
  cbv zeta. rewrite Hfirst. repeat split; assumption.
Defined.

Lemma verifyOtp_mismatch_keeps_entry_witness :
  let first := verifyOtp (world (noon + 1000) true) (aliceCode "111111") signedUp in
  let second := verifyOtp (world (noon + 2000) true) (aliceCode "482913") first.2 in
  first.1 = sendErrorResponse 400 "Invalid OTP"
  /\ otpCache first.2 !! "alice@x.com"%string = Some aliceOtp
  /\ status second.1 = 200.
Proof.
  destruct (verifyOtp_mismatch_keeps_entry
              (world (noon + 1000) true) (world (noon + 2000) true)
              (aliceCode "111111") (aliceCode "482913") signedUp aliceOtp alice
              eq_refl eq_refl eq_refl signedUp_pending
              ltac:(vm_compute; discriminate) ltac:(vm_compute; discriminate)
              eq_refl eq_refl eq_refl ltac:(vm_compute; discriminate) eq_refl)
    as (Hfirst & _ & Hkept & Hsecond & _).
  cbv zeta. rewrite Hsecond. repeat split; assumption.
Defined.

(** The code Alice was sent, followed by three letters, is not the code
    that was issued; [parseInt] reads the issued code in it, and the
    request is accepted. *)
Lemma differing_code_is_accepted :
  otpCache signedUp !! "alice@x.com"%string = Some aliceOtp
  /\ String.eqb "482913abc" (JS.toString (otp aliceOtp)) = false
  /\ JS.parseInt "482913abc" = Some (otp aliceOtp)
  /\ status (verifyOtp (world (noon + 1000) true) (aliceCode "482913abc")
               signedUp).1 = 200
  /\ otpCache (verifyOtp (world (noon + 1000) true) (aliceCode "482913abc")
                 signedUp).2 !! "alice@x.com"%string = None.
Proof. vm_compute. repeat split. Qed.

Lemma verifyOtp_expired_as_absent_witness :
  (verifyOtp (world (noon + 600001) true) (aliceCode "482913") signedUp).1
  = sendErrorResponse 400 "OTP not generated or expired"
  /\ otpCache (verifyOtp (world (noon + 600001) true) (aliceCode "482913")
                 signedUp).2 !! "alice@x.com"%string = None.
Proof.
  destruct (verifyOtp_expired_as_absent
              (world (noon + 600001) true) (aliceCode "482913")
              signedUp initial aliceOtp
              eq_refl eq_refl eq_refl signedUp_pending
              ltac:(vm_compute; reflexivity) ltac:(vm_compute; reflexivity))
    as (Hans & Hgone & _).
  split; assumption.
Defined.

(** The entry of Alice, one millisecond past the ten minutes, is
    answered exactly as a code for which nothing was ever issued. *)
Lemma expired_answer_is_the_absent_answer :
  now (world (noon + 600001) true) - timestamp aliceOtp > OTP_EXPIRY_TIME
  /\ otpCache signedUp !! "alice@x.com"%string = Some aliceOtp
  /\ otpCache initial !! "alice@x.com"%string = None
  /\ (verifyOtp (world (noon + 600001) true) (aliceCode "482913") signedUp).1
     = sendErrorResponse 400 "OTP not generated or expired"
  /\ (verifyOtp (world (noon + 600001) true) (aliceCode "482913") initial).1
     = sendErrorResponse 400 "OTP not generated or expired".
Proof. vm_compute. repeat split. Qed.

Lemma verifyOtp_consumes_before_update_witness :
  let first := verifyOtp (world (noon + 1000) true) (aliceCode "482913") orphaned in
  let second := verifyOtp (world (noon + 2000) true) (aliceCode "482913") first.2 in
  first.1 = sendErrorResponse 404 "User not found"
  /\ otpCache first.2 !! "alice@x.com"%string = None
  /\ second.1 = sendErrorResponse 400 "OTP not generated or expired".
Proof.
  destruct (verifyOtp_consumes_before_update
              (world (noon + 1000) true) (world (noon + 2000) true)
              (aliceCode "482913") orphaned aliceOtp
              eq_refl eq_refl orphaned_pending ltac:(vm_compute; discriminate)
              eq_refl eq_refl)
    as (Hfirst & _ & Hgone & Hsecond).
  repeat split; assumption.
Defined.

Lemma loginUser_rejections_witness :
  loginUser (world noon true) (aliceLogin "not-secret1") signedUp
  = (sendErrorResponse 401 "Please verify your account first", signedUp)
  /\ loginUser (world noon true) (aliceLogin "secret1") initial
     = (sendErrorResponse 401 "Invalid email or password", initial)
  /\ loginUser (world noon true) (aliceLogin "not-secret1") verifiedUp
     = (sendErrorResponse 401 "Invalid email or password", verifiedUp).
Proof.
  split; [|split].
  - exact (proj1 (loginUser_rejections (world noon true)
                    (aliceLogin "not-secret1") signedUp eq_refl)
             alice eq_refl eq_refl).
  - exact (proj1 (proj2 (loginUser_rejections (world noon true)
                           (aliceLogin "secret1") initial eq_refl))
             eq_refl).
  - refine (proj2 (proj2 (loginUser_rejections (world noon true)
                            (aliceLogin "not-secret1") verifiedUp eq_refl))
              (User.setVerified alice) _ eq_refl eq_refl).
    vm_compute. reflexivity.
Defined.

(** Alice has not verified her account and types a wrong password: the
    answer is "Please verify your account first", not "Invalid email or
    password". *)
Lemma login_unverified_wrong_password :
  User.findOne "alice@x.com" (users signedUp) = Some alice
  /\ User.isVerified alice = false
  /\ bcrypt_compare "not-secret1" (User.password alice) = false
  /\ (loginUser (world noon true) (aliceLogin "not-secret1") signedUp).1
     = sendErrorResponse 401 "Please verify your account first".
Proof. vm_compute. repeat split. Qed.

Lemma send_failure_keeps_state_witness :
  (registerUser (world noon false) aliceSignup initial).1 = internalError
  /\ (registerUser (world noon false) aliceSignup initial).2 = signedUp
  /\ (resendOtp (world (noon + 5) false) (aliceCode "") signedUp).1 = internalError
  /\ (resendOtp (world (noon + 5) false) (aliceCode "") signedUp).2
     = (resendOtp (world (noon + 5) true) (aliceCode "") signedUp).2.
Proof.
  destruct (send_failure_keeps_state (world noon false) aliceSignup initial
              eq_refl eq_refl) as [Hreg _].
  destruct (Hreg alice [alice] eq_refl eq_refl) as (Hr1 & _ & Hr3 & _).
  destruct (send_failure_keeps_state (world (noon + 5) false) (aliceCode "")
              signedUp eq_refl eq_refl) as [_ Hres].
  destruct (Hres alice eq_refl eq_refl) as (Hs1 & _ & Hs3 & _).
  repeat split; assumption.
Defined.

(** The mail to Alice is rejected while she signs up: her account and
    her passcode are stored, and the request is answered 500. *)
Lemma register_send_failure_is_answered_500 :
  mail_sent (world noon false) = false
  /\ (registerUser (world noon false) aliceSignup initial).1
     = sendErrorResponse 500 "Internal server error"
  /\ users (registerUser (world noon false) aliceSignup initial).2 = [alice]
  /\ otpCache (registerUser (world noon false) aliceSignup initial).2
       !! "alice@x.com"%string = Some aliceOtp.
Proof. vm_compute. repeat split. Qed.

Lemma otp_issuance_witness :
  100000 <= generateOtp 382913 < 1000000
  /\ otpCache (registerUser (world noon true) aliceSignup initial).2
       !! "alice@x.com"%string = Some (mkOtp (generateOtp 382913) noon)
  /\ otpCache (resendOtp (world (noon + 5) true) (aliceCode "") signedUp).2
       !! "alice@x.com"%string = Some (mkOtp (generateOtp 382913) (noon + 5)).
Proof.
  destruct (otp_issuance (world noon true) aliceSignup initial)
    as (Hrange & Hreg & _).
  destruct (Hreg alice [alice] eq_refl eq_refl eq_refl) as [_ Hr].
  destruct (otp_issuance (world (noon + 5) true) (aliceCode "") signedUp)
    as (_ & _ & Hres).
  destruct (Hres alice eq_refl eq_refl eq_refl) as [_ Hs].
  repeat split; first [exact Hr | exact Hs | apply Hrange].
Defined.

(** No draw yields the passcode 012345: the range starts at 100000. *)
Lemma leading_zero_never_drawn :
  exists code, 0 <= code < 10 ^ OTP_LENGTH
               /\ forall entropy, generateOtp entropy <> code.
Proof.
  exists 12345. split; [vm_compute; split; [discriminate | reflexivity]|].
  intros e. pose proof (generateOtp_range e). lia.
Qed.

Lemma registerUser_already_exists_witness :
  registerUser (world (noon + 9) true) aliceSignup signedUp
  = (sendErrorResponse 400 "User already exists", signedUp)
  /\ User.accountsOf "alice@x.com" (users signedUp) = [alice].
Proof.
  pose proof (registerUser_already_exists (world (noon + 9) true) aliceSignup
                signedUp alice) as Hw.
  destruct (Hw eq_refl (NoDup_singleton _) eq_refl) as (Hrun & Hone & _).
  rewrite Hrun in Hone. split; assumption.
Defined.

Lemma token_round_trip_witness :
  (exists p, Jwt.verify (Jwt.sign 1 "supersecretkey" 86400 noon)
               "supersecretkey" (noon + 1000) = inr p
             /\ Jwt.id p = 1 /\ Jwt.exp p = 43200 + 86400)
  /\ Jwt.verify (Jwt.sign 1 "supersecretkey" 86400 noon)
       "supersecretkey" (noon + 86401000) = inl Jwt.Expired.
Proof.
  destruct (token_round_trip 1 "supersecretkey" 86400 noon (noon + 1000))
    as [Hok _].
  destruct (token_round_trip 1 "supersecretkey" 86400 noon (noon + 86401000))
    as [_ Hexp].
  split.
  - apply Hok. vm_compute. reflexivity.
  - apply Hexp. vm_compute. reflexivity.
Defined.

(* ===================================================================== *)
(** ** The further properties on examples *)
(* ===================================================================== *)

Lemma signedUp_ok :
  status (registerUser (world noon true) aliceSignup initial).1 = 201.
Proof. reflexivity. Defined.

(** Ten minutes to the millisecond: Alice's entry is still there. *)
Lemma sweep_keeps_exactly_the_live_witness :
  cleanExpiredOtps (noon + 600000) (otpCache signedUp)
    !! "alice@x.com"%string = Some aliceOtp.
Proof.
  apply (proj2 (sweep_keeps_exactly_the_live (noon + 600000) (otpCache signedUp)
                  "alice@x.com" aliceOtp)).
  split; [exact signedUp_pending | vm_compute; discriminate].
Defined.

Lemma sweep_twice_witness :
  cleanExpiredOtps (noon + 700000)
    (cleanExpiredOtps (noon + 600001) (otpCache crowded))
  = cleanExpiredOtps (noon + 700000) (otpCache crowded).
Proof. apply sweep_twice. vm_compute. discriminate. Defined.

Lemma generateOtp_exact_range_witness : exists e, generateOtp e = 482913.
Proof.
  apply (proj2 generateOtp_exact_range 482913).
  split; vm_compute; discriminate.
Defined.

Lemma verifyOtp_ignores_trailing_text_witness :
  status (verifyOtp (world (noon + 1000) true)
            (aliceCode "482913 please") signedUp).1 = 200.
Proof.
  exact (proj1 (verifyOtp_ignores_trailing_text (world (noon + 1000) true)
                  signedUp "alice@x.com" " please" aliceOtp alice
                  eq_refl signedUp_pending ltac:(vm_compute; discriminate)
                  ltac:(vm_compute; discriminate) eq_refl eq_refl)).
Defined.

Lemma accounts_are_kept_witness :
  exists u',
    User.findOne "alice@x.com"
      (users (serve [VerifyOtp (world (noon + 1000) true) (aliceCode "482913");
                     Register (world (noon + 2000) true) blankSignup;
                     Logout] signedUp)) = Some u'
    /\ sameAccount alice u'.
Proof.
  exact (accounts_are_kept
           [VerifyOtp (world (noon + 1000) true) (aliceCode "482913");
            Register (world (noon + 2000) true) blankSignup;
            Logout] signedUp "alice@x.com" alice eq_refl).
Defined.

Lemma register_verify_login_witness :
  status (loginUser (world (noon + 5000) true) (aliceLogin "secret1")
            verifiedUp).1 = 200.
Proof.
  pose proof (register_verify_login (world noon true) (world (noon + 1000) true)
                (world (noon + 5000) true) aliceSignup initial
                signedUp_ok ltac:(vm_compute; discriminate) eq_refl) as Hlogin.
  cbv zeta in Hlogin.
  change (loginUser (world (noon + 5000) true) (aliceLogin "secret1") verifiedUp
          = (mkResponse 200
               (JSession "Login successful"
                  (Jwt.sign 1 JWT_SECRET JWT_EXPIRE (noon + 5000))
                  (mkView 1 "Alice" "alice@x.com"))
               (CookieSet (Jwt.sign 1 JWT_SECRET JWT_EXPIRE (noon + 5000))),
             verifiedUp)) in Hlogin.
  now rewrite Hlogin.
Defined.

Lemma resendOtp_replaces_the_code_witness :
  let s1 := (resendOtp (mkEffects (noon + 5) 5 7 1 true) (aliceCode "") signedUp).2 in
  let stale := verifyOtp (world (noon + 1000) true) (aliceCode "482913") s1 in
  let fresh := verifyOtp (world (noon + 2000) true) (aliceCode "100005") stale.2 in
  stale.1 = sendErrorResponse 400 "Invalid OTP" /\ status fresh.1 = 200.
Proof.
  pose proof (resendOtp_replaces_the_code (mkEffects (noon + 5) 5 7 1 true)
                (world (noon + 1000) true) (world (noon + 2000) true)
                (aliceCode "") signedUp aliceOtp alice) as Hw.
  destruct (Hw eq_refl eq_refl eq_refl signedUp_pending
              ltac:(vm_compute; discriminate) ltac:(vm_compute; discriminate)
              ltac:(vm_compute; discriminate) ltac:(vm_compute; discriminate))
    as (Hstale & Hfresh & _).
  split; [exact Hstale | exact Hfresh].
Defined.

(** Alice mistypes her code a quarter past noon: Bob's passcode, issued
    at midnight, is swept by her request. *)
Lemma verifyOtp_sweeps_everyone_witness :
  otpCache crowded !! "bob@x.com"%string = Some (mkOtp 111111 0)
  /\ otpCache (verifyOtp (world (noon + 1000) true) (aliceCode "000000")
                 crowded).2 !! "bob@x.com"%string = None.
Proof.
  split; [vm_compute; reflexivity|].
  rewrite (verifyOtp_sweeps_everyone (world (noon + 1000) true)
             (aliceCode "000000") crowded "bob@x.com"
             eq_refl eq_refl eq_refl ltac:(discriminate)).
  vm_compute. reflexivity.
Defined.

Lemma issuance_touches_one_key_witness :
  otpCache (resendOtp (world (noon + 5) true) (aliceCode "") crowded).2
    !! "bob@x.com"%string = Some (mkOtp 111111 0).
Proof.
  rewrite (proj2 (issuance_touches_one_key (world (noon + 5) true)
                    (aliceCode "") crowded "bob@x.com" ltac:(discriminate))).
  vm_compute. reflexivity.
Defined.

Lemma registerUser_then_verifyOtp_witness :
  status (verifyOtp (world (noon + 1000) true) (aliceCode "482913") signedUp).1
  = 200.
Proof.
  exact (proj1 (registerUser_then_verifyOtp (world noon true)
                  (world (noon + 1000) true) aliceSignup initial
                  signedUp_ok ltac:(vm_compute; discriminate))).
Defined.

Lemma blank_name_is_answered_500_witness :
  registerUser (world noon true) blankSignup initial
  = (sendErrorResponse 500 "Internal server error", initial).
Proof.
  exact (blank_name_is_answered_500 (world noon true) blankSignup initial
           eq_refl eq_refl eq_refl).
Defined.

(** Alice signs up as Alice@X.com and verifies as alice@x.com. *)
Lemma otp_is_keyed_by_the_email_as_typed_witness :
  (verifyOtp (world (noon + 1000) true) (aliceCode "482913")
     (registerUser (world noon true) aliceShouting initial).2).1
  = sendErrorResponse 400 "OTP not generated or expired".
Proof.
  exact (proj1 (otp_is_keyed_by_the_email_as_typed (world noon true)
                  (world (noon + 1000) true) aliceShouting initial
                  "alice@x.com" "482913"
                  eq_refl ltac:(discriminate) eq_refl eq_refl eq_refl eq_refl)).
Defined.

Lemma retryDelay_bounds_witness :
  5000 <= Db.retryDelay 3 <= Db.MAX_RETRY_DELAY
  /\ Db.retryDelay 3 <= Db.retryDelay 7
  /\ Db.retryDelay 7 = Db.MAX_RETRY_DELAY.
Proof.
  destruct (retryDelay_bounds 3 7 ltac:(lia) ltac:(lia)) as (Hb & Hm & _).
  destruct (retryDelay_bounds 7 7 ltac:(lia) ltac:(lia)) as (_ & _ & Hs).
  split; [exact Hb | split; [exact Hm | apply Hs; lia]].
Defined.

Lemma registerUser_twice_witness :
  registerUser (world (noon + 9) true) aliceSignup signedUp
  = (sendErrorResponse 400 "User already exists", signedUp).
Proof.
  exact (registerUser_twice (world noon true) (world (noon + 9) true)
           aliceSignup initial signedUp_ok).
Defined.

